(** * Year-in-LLMs scraper: a shallow embedding of [scrape_year_in_llms.py]

    The development follows the layout of the script:
    - [PyStr]  the Python [str] operations the script relies on;
    - [Re]     the fragment of Python's backtracking [re] engine needed for
               [month_pattern];
    - [Soup]   the BeautifulSoup tree and the queries the script issues;
    - the extraction functions, the event builder, and the orchestration
      ([scrape_year], [main]) over an explicit world (standard output and
      written files) and a record of external collaborators.

    Text is modelled by [string]: a character is a code point below 256, so
    the model covers the ASCII and Latin-1 part of Python's [str]. *)

From Stdlib Require Import ZArith NArith Bool List Ascii String Lia.
From Stdlib Require Import DecimalString.
From Stdlib Require DecimalPos DecimalZ.
Import ListNotations.

Set Warnings "-register-all".

Local Open Scope string_scope.
Local Open Scope list_scope.

(** String concatenation, kept apart from list append. *)
Infix "+:+" := String.append (at level 60, right associativity).

(* ================================================================== *)
(** * Python string operations *)
(* ================================================================== *)

Module PyStr.

Definition code (c : ascii) : N := N_of_ascii c.

Definition in_range (lo hi : N) (c : ascii) : bool :=
  (N.leb lo (code c) && N.leb (code c) hi)%bool.

(** [str.isspace] on one character, which is also what [\s] and
    [str.strip()] use: TAB..CR, FS..US, SPACE, NEL and NBSP. *)
Definition isspace (c : ascii) : bool :=
  in_range 9 13 c || in_range 28 32 c
  || N.eqb (code c) 133 || N.eqb (code c) 160.

(** A decimal digit, as [\d] sees it below code point 256. *)
Definition isdigit (c : ascii) : bool := in_range 48 57 c.

Definition isalpha_ascii (c : ascii) : bool :=
  in_range 65 90 c || in_range 97 122 c.

(** [str.lower] on one character: A-Z, and the Latin-1 capitals
    U+00C0..U+00DE except the multiplication sign U+00D7. *)
Definition lower_char (c : ascii) : ascii :=
  if in_range 65 90 c
     || (in_range 192 222 c && negb (N.eqb (code c) 215))
  then ascii_of_N (code c + 32)
  else c.

Fixpoint lower (s : string) : string :=
  match s with
  | EmptyString => EmptyString
  | String c s' => String (lower_char c) (lower s')
  end.

(** [s.startswith(p)]. *)
Fixpoint startswith (s p : string) {struct p} : bool :=
  match p, s with
  | EmptyString, _ => true
  | String _ _, EmptyString => false
  | String a p', String b s' => Ascii.eqb a b && startswith s' p'
  end.

(** [sub in s]: substring test. *)
Fixpoint contains (sub s : string) : bool :=
  startswith s sub
  || match s with
     | EmptyString => false
     | String _ s' => contains sub s'
     end.

(** [s[:n]]. *)
Fixpoint slice_to (n : nat) (s : string) : string :=
  match n, s with
  | O, _ => EmptyString
  | S _, EmptyString => EmptyString
  | S n', String c s' => String c (slice_to n' s')
  end.

(** [len(s)]. *)
Definition len (s : string) : Z := Z.of_nat (String.length s).

(** Truthiness of a string: non-empty. *)
Definition truthy (s : string) : bool :=
  match s with EmptyString => false | String _ _ => true end.

Fixpoint lstrip (s : string) : string :=
  match s with
  | EmptyString => EmptyString
  | String c s' => if isspace c then lstrip s' else s
  end.

(** Drops trailing whitespace: a character is kept when something
    non-blank remains at or after it. *)
Fixpoint rstrip (s : string) : string :=
  match s with
  | EmptyString => EmptyString
  | String c s' =>
      match rstrip s' with
      | EmptyString => if isspace c then EmptyString else String c EmptyString
      | r => String c r
      end
  end.

(** [s.strip()]. *)
Definition strip (s : string) : string := rstrip (lstrip s).

(** [sep.join(parts)]. *)
Definition join (sep : string) (parts : list string) : string :=
  String.concat sep parts.

(** [str(n)] for an [int]. *)
Definition str_of_int (n : Z) : string :=
  NilZero.string_of_int (Z.to_int n).

(** The maximal runs of non-blank characters of [s] (what [\S+]
    finds), used for multi-valued attributes such as [class]. *)
Fixpoint tokens_aux (cur : string) (s : string) : list string :=
  match s with
  | EmptyString => if truthy cur then [cur] else []
  | String c s' =>
      if isspace c
      then (if truthy cur then [cur] else []) ++ tokens_aux EmptyString s'
      else tokens_aux (cur +:+ String c EmptyString) s'
  end.

Definition tokens (s : string) : list string := tokens_aux EmptyString s.

End PyStr.

(* ================================================================== *)
(** * The fragment of Python's [re] used by [month_pattern] *)
(* ================================================================== *)

Module Re.

(** Patterns.  Repetition is of a character class, which is all the
    script's pattern needs: [\s*] is [Rep isspace 0 None], [\d{1,2}] is
    [Rep isdigit 1 (Some 2)] and [\d{4}] is [Rep isdigit 4 (Some 4)]. *)
Inductive regex : Type :=
| Chr (c : ascii)
| Cls (p : ascii -> bool)
| Eps
| Cat (r1 r2 : regex)
| Alt (r1 r2 : regex)
| Opt (r : regex)
| Rep (p : ascii -> bool) (lo : nat) (hi : option nat)
| Grp (n : nat) (r : regex).

(** Captured groups, most recent binding first. *)
Definition groups := list (nat * string).

Fixpoint group (m : groups) (n : nat) : option string :=
  match m with
  | [] => None
  | (k, v) :: m' => if Nat.eqb k n then Some v else group m' n
  end.

(** The text consumed between a position [s] and a later one [s']. *)
Definition consumed (s s' : string) : string :=
  PyStr.slice_to (String.length s - String.length s') s.

(** A pattern character against a text character; under IGNORECASE
    both are compared after lowering. *)
Definition chr_match (ignorecase : bool) (c d : ascii) : bool :=
  if ignorecase
  then Ascii.eqb (PyStr.lower_char c) (PyStr.lower_char d)
  else Ascii.eqb c d.

Section Matcher.
Context {R : Type}.
Variable ignorecase : bool.

(** Greedy bounded repetition of a class with backtracking: take as
    many characters as allowed, then give them back one at a time
    while the continuation fails. *)
Fixpoint rep (p : ascii -> bool) (lo : nat) (hi : option nat)
         (s : string) (k : string -> option R) : option R :=
  let stop := match lo with O => k s | S _ => None end in
  let more := match hi with Some O => false | _ => true end in
  match s with
  | EmptyString => stop
  | String c s' =>
      if more && p c
      then match rep p (Nat.pred lo) (option_map Nat.pred hi) s' k with
           | Some x => Some x
           | None => stop
           end
      else stop
  end.

(** The backtracking matcher in continuation-passing style: the
    first alternative, and the longest repetition, are tried first. *)
Fixpoint run (r : regex) (s : string) (g : groups)
         (k : string -> groups -> option R) : option R :=
  match r with
  | Chr c =>
      match s with
      | String d s' => if chr_match ignorecase c d then k s' g else None
      | EmptyString => None
      end
  | Cls p =>
      match s with
      | String d s' => if p d then k s' g else None
      | EmptyString => None
      end
  | Eps => k s g
  | Cat r1 r2 => run r1 s g (fun s' g' => run r2 s' g' k)
  | Alt r1 r2 =>
      match run r1 s g k with
      | Some x => Some x
      | None => run r2 s g k
      end
  | Opt r1 =>
      match run r1 s g k with
      | Some x => Some x
      | None => k s g
      end
  | Rep p lo hi => rep p lo hi s (fun s' => k s' g)
  | Grp n r1 => run r1 s g (fun s' g' => k s' ((n, consumed s s') :: g'))
  end.
End Matcher.

(** [re.match]: the pattern anchored at the start of [s]. *)
Definition match_here (r : regex) (ignorecase : bool) (s : string)
  : option groups :=
  run ignorecase r s [] (fun _ g => Some g).

(** [re.search]: the match at the leftmost position that has one. *)
Fixpoint search (r : regex) (ignorecase : bool) (s : string)
  : option groups :=
  match match_here r ignorecase s with
  | Some g => Some g
  | None =>
      match s with
      | EmptyString => None
      | String _ s' => search r ignorecase s'
      end
  end.

(** A literal word. *)
Fixpoint lit (w : string) : regex :=
  match w with
  | EmptyString => Eps
  | String c w' => Cat (Chr c) (lit w')
  end.

(** [r | r1 | ... | rn]. *)
Fixpoint alts (r : regex) (rs : list regex) : regex :=
  match rs with
  | [] => r
  | r' :: rs' => Alt r (alts r' rs')
  end.

End Re.

(* ================================================================== *)
(** * The parsed document *)
(* ================================================================== *)

Module Soup.

(** A parsed page: tags with their attributes and contents, and text
    nodes.  Strings that none of the script's queries can see (comments,
    script and style bodies) are left out of the tree.  The document
    itself is a tag whose contents are the top-level nodes. *)
Inductive PageElement : Type :=
| Tag (name : string) (attrs : list (string * string))
      (contents : list PageElement)
| NavigableString (s : string).

Definition is_tag (e : PageElement) : bool :=
  match e with Tag _ _ _ => true | NavigableString _ => false end.

(** [e.name]; a text node has none. *)
Definition name_of (e : PageElement) : option string :=
  match e with Tag n _ _ => Some n | NavigableString _ => None end.

Definition has_name (n : string) (e : PageElement) : bool :=
  match e with Tag m _ _ => String.eqb m n | NavigableString _ => false end.

(** [e.name in names]. *)
Definition name_in (names : list string) (e : PageElement) : bool :=
  existsb (fun n => has_name n e) names.

Fixpoint assoc (k : string) (l : list (string * string)) : option string :=
  match l with
  | [] => None
  | (k', v) :: l' => if String.eqb k' k then Some v else assoc k l'
  end.

(** [e.get(k)]. *)
Definition get_attr (k : string) (e : PageElement) : option string :=
  match e with Tag _ a _ => assoc k a | NavigableString _ => None end.

(** [class_=c] for a class name without blanks: [c] is one of the
    blank-separated values of the [class] attribute. *)
Definition has_class (c : string) (e : PageElement) : bool :=
  match get_attr "class" e with
  | Some v => existsb (String.eqb c) (PyStr.tokens v)
  | None => false
  end.

(** A descendant together with the siblings that follow it under its
    parent: what [find_next_siblings] starts from. *)
Record located : Type := Loc {
  node : PageElement;
  following : list PageElement
}.

(** [e.descendants]: every node below [e], in document order. *)
Fixpoint descendants (e : PageElement) : list located :=
  match e with
  | NavigableString _ => []
  | Tag _ _ cs =>
      (fix children (l : list PageElement) : list located :=
         match l with
         | [] => []
         | c :: rest => Loc c rest :: descendants c ++ children rest
         end) cs
  end.

(** [e.find_all(...)] with a test on tags. *)
Definition find_all (test : PageElement -> bool) (e : PageElement)
  : list located :=
  filter (fun d => is_tag (node d) && test (node d)) (descendants e).

(** [e.find(...)]: the first result of [find_all], if any. *)
Definition find (test : PageElement -> bool) (e : PageElement)
  : option PageElement :=
  match find_all test e with
  | [] => None
  | d :: _ => Some (node d)
  end.

(** [h.find_next_siblings()]: the tags among the following siblings. *)
Definition find_next_siblings (d : located) : list PageElement :=
  filter is_tag (following d).

(** The strings below [e], in document order. *)
Fixpoint all_strings (e : PageElement) : list string :=
  match e with
  | NavigableString s => [s]
  | Tag _ _ cs => flat_map all_strings cs
  end.

(** [e.get_text(strip=True)]: every string stripped, the empty ones
    dropped, the rest concatenated. *)
Definition get_text_strip (e : PageElement) : string :=
  PyStr.join "" (filter PyStr.truthy (map PyStr.strip (all_strings e))).

End Soup.

Import Soup.

(* ================================================================== *)
(** * Data model *)
(* ================================================================== *)

(** [{'text': ..., 'url': ...}] *)
Record Link : Type := mkLink {
  l_text : string;
  l_url : string
}.

(** [{'title': ..., 'level': ..., 'content': [...]}] *)
Record Sec : Type := mkSec {
  s_title : string;
  s_level : Z;
  s_content : list string
}.

(** [{'title', 'date', 'categories', 'description', 'links'}];
    [e_date] is [None] when [extract_dates] returns [None]. *)
Record Event : Type := mkEvent {
  e_title : string;
  e_date : option string;
  e_categories : list string;
  e_description : string;
  e_links : list Link
}.

(** The dictionaries returned by [verify_link]; a key that is missing
    or holds [None] is [None] here. *)
Record LinkVerification : Type := mkVerification {
  v_url : string;
  v_status : option Z;
  v_valid : bool;
  v_final_url : option string;
  v_error : option string
}.

(** The dictionary returned by [scrape_year]. *)
Record YearResult : Type := mkYearResult {
  y_year : Z;
  y_source_url : string;
  y_title : string;
  y_scraped_at : string;
  y_events : list Event;
  y_all_links : list Link;
  y_sections : list Sec;
  y_link_verification : option (list LinkVerification)
}.

(* ================================================================== *)
(** * The extraction functions *)
(* ================================================================== *)

(** [URL_PATTERNS] *)
Definition URL_PATTERNS : list (Z * string) :=
  [ (2023%Z, "https://simonwillison.net/2023/Dec/31/ai-in-2023/");
    (2024%Z, "https://simonwillison.net/2024/Dec/31/llms-in-2024/");
    (2025%Z, "https://simonwillison.net/2025/Dec/31/the-year-in-llms/") ].

Fixpoint dict_get {V : Type} (k : Z) (d : list (Z * V)) : option V :=
  match d with
  | [] => None
  | (k', v) :: d' => if Z.eqb k' k then Some v else dict_get k d'
  end.

Definition get_url_for_year (year : Z) : string :=
  match dict_get year URL_PATTERNS with
  | Some url => url
  | None =>
      let y := PyStr.str_of_int year in
      let possible_slugs :=
        [ "https://simonwillison.net/" +:+ y +:+ "/Dec/31/the-year-in-llms/";
          "https://simonwillison.net/" +:+ y +:+ "/Dec/31/llms-in-" +:+ y +:+ "/";
          "https://simonwillison.net/" +:+ y +:+ "/Dec/31/ai-in-" +:+ y +:+ "/" ] in
      hd "" possible_slugs
  end.

(** [soup.find('article') or soup.find('div', class_='entry-content') or soup] *)
Definition article_of (soup : PageElement) : PageElement :=
  match find (has_name "article") soup with
  | Some a => a
  | None =>
      match find (fun e => has_name "div" e && has_class "entry-content" e) soup with
      | Some d => d
      | None => soup
      end
  end.

(** [a['href']] for an anchor selected with [href=True]. *)
Definition href_of (a : PageElement) : string :=
  match get_attr "href" a with Some h => h | None => "" end.

Definition has_href (a : PageElement) : bool :=
  match get_attr "href" a with Some _ => true | None => false end.

Section ExtractLinks.
(** [urllib.parse.urljoin] *)
Variable urljoin : string -> string -> string.

(** The target of an anchor after the "make relative URLs absolute"
    step. *)
Definition resolve_href (base_url href : string) : string :=
  if negb (PyStr.startswith href "http://" || PyStr.startswith href "https://")
  then urljoin base_url href
  else href.

(** One iteration of the loop of [extract_links]. *)
Definition extract_links_step (base_url : string) (links : list Link)
           (a : located) : list Link :=
  let href := href_of (node a) in
  let href := resolve_href base_url href in
  let text := get_text_strip (node a) in
  if PyStr.truthy text && PyStr.truthy href
  then links ++ [ {| l_text := text; l_url := href |} ]
  else links.

Definition extract_links (soup : PageElement) (base_url : string)
  : list Link :=
  let links := [] in
  let article := article_of soup in
  fold_left (extract_links_step base_url)
            (find_all (fun a => has_name "a" a && has_href a) article)
            links.
End ExtractLinks.

(** [int(heading.name[1])] for a one-digit rank. *)
Definition level_of (e : PageElement) : Z :=
  match name_of e with
  | Some (String _ (String d _)) => Z.of_N (PyStr.code d) - 48
  | _ => 0
  end.

(** The inner loop of [extract_headings_and_sections] over the following
    sibling tags: [break] at a heading, append the text of a paragraph. *)
Fixpoint collect_content (siblings : list PageElement) (content : list string)
  : list string :=
  match siblings with
  | [] => content
  | sibling :: rest =>
      if name_in ["h2"; "h3"] sibling then content
      else if has_name "p" sibling
           then collect_content rest (content ++ [get_text_strip sibling])
           else collect_content rest content
  end.

Definition section_of_heading (heading : located) : Sec :=
  {| s_title := get_text_strip (node heading);
     s_level := level_of (node heading);
     s_content := collect_content (find_next_siblings heading) [] |}.

Definition extract_headings_and_sections (soup : PageElement) : list Sec :=
  let sections := [] in
  let article := article_of soup in
  fold_left (fun sections heading => sections ++ [section_of_heading heading])
            (find_all (name_in ["h2"; "h3"]) article)
            sections.

(** [any(kw in text_lower for kw in kws)] *)
Definition any_kw (kws : list string) (text_lower : string) : bool :=
  existsb (fun kw => PyStr.contains kw text_lower) kws.

Definition kw_models : list string :=
  ["gpt"; "claude"; "llama"; "gemini"; "mistral";
   "qwen"; "deepseek"; "model"; "parameter"].
Definition kw_tools : list string :=
  ["tool"; "cli"; "api"; "code"; "app"; "plugin";
   "extension"; "library"; "sdk"].
Definition kw_concepts : list string :=
  ["concept"; "term"; "coined"; "definition";
   "paradigm"; "pattern"; "methodology"].
Definition kw_pricing : list string :=
  ["$"; "price"; "cost"; "subscription";
   "revenue"; "million"; "billion"].
Definition kw_companies : list string :=
  ["openai"; "anthropic"; "google"; "meta";
   "microsoft"; "alibaba"; "amazon"].
Definition kw_research : list string :=
  ["research"; "paper"; "study"; "benchmark";
   "leaderboard"; "competition"; "olympiad"].

Definition categorize_content (text : string) : list string :=
  let categories := [] in
  let text_lower := PyStr.lower text in
  let categories :=
    if any_kw kw_models text_lower then categories ++ ["models"] else categories in
  let categories :=
    if any_kw kw_tools text_lower then categories ++ ["tools"] else categories in
  let categories :=
    if any_kw kw_concepts text_lower then categories ++ ["concepts"] else categories in
  let categories :=
    if any_kw kw_pricing text_lower then categories ++ ["pricing"] else categories in
  let categories :=
    if any_kw kw_companies text_lower then categories ++ ["companies"] else categories in
  let categories :=
    if any_kw kw_research text_lower then categories ++ ["research"] else categories in
  match categories with
  | [] => ["concepts"]
  | _ :: _ => categories
  end.

Definition month_names : list string :=
  ["January"; "February"; "March"; "April"; "May"; "June"; "July";
   "August"; "September"; "October"; "November"; "December"].

(** [(January|...|December)\s*(\d{1,2})?,?\s*(\d{4})?] *)
Definition month_pattern : Re.regex :=
  Re.Cat (Re.Grp 1 (Re.alts (Re.lit "January")
                            (map Re.lit (tl month_names))))
 (Re.Cat (Re.Rep PyStr.isspace 0 None)
 (Re.Cat (Re.Opt (Re.Grp 2 (Re.Rep PyStr.isdigit 1 (Some 2))))
 (Re.Cat (Re.Opt (Re.Chr ","))
 (Re.Cat (Re.Rep PyStr.isspace 0 None)
         (Re.Opt (Re.Grp 3 (Re.Rep PyStr.isdigit 4 (Some 4)))))))).

(** A group inside an f-string: [None] prints as the word. *)
Definition fmt_group (g : option string) : string :=
  match g with Some s => s | None => "None" end.

(** Truthiness of a group: captured and non-empty. *)
Definition group_truthy (g : option string) : bool :=
  match g with Some s => PyStr.truthy s | None => false end.

(** The declared result is [str | None]; every [return] of the body
    is kept as it is written. *)
Definition extract_dates (text : string) (year : Z) : option string :=
  match Re.search month_pattern true text with
  | Some m =>
      let month := Re.group m 1 in
      let day := Re.group m 2 in
      let found_year :=
        if group_truthy (Re.group m 3)
        then fmt_group (Re.group m 3)
        else PyStr.str_of_int year in
      if group_truthy day
      then Some (fmt_group month +:+ " " +:+ fmt_group day +:+ ", " +:+ found_year)
      else Some (fmt_group month +:+ " " +:+ found_year)
  | None => Some (PyStr.str_of_int year)
  end.

Section VerifyLink.
(** [requests.head(url, timeout=10, allow_redirects=True)]: the status
    code and final URL of the response, or the text of the
    [RequestException]. *)
Variable requests_head : string -> (Z * string) + string.

Definition verify_link (url : string) : LinkVerification :=
  match requests_head url with
  | inl (status_code, response_url) =>
      {| v_url := url;
         v_status := Some status_code;
         v_valid := Z.ltb status_code 400;
         v_final_url :=
           if negb (String.eqb response_url url) then Some response_url else None;
         v_error := None |}
  | inr e =>
      {| v_url := url;
         v_status := None;
         v_valid := false;
         v_final_url := None;
         v_error := Some e |}
  end.
End VerifyLink.

(* ================================================================== *)
(** * The event builder (the loop of [scrape_year]) *)
(* ================================================================== *)

(** [content_text[:300] + '...' if len(content_text) > 300 else content_text] *)
Definition describe (content_text : string) : string :=
  if Z.gtb (PyStr.len content_text) 300
  then PyStr.slice_to 300 content_text +:+ "..."
  else content_text.

(** [link['text'].lower() in content_text.lower() or link['text'] in section['title']] *)
Definition link_in_section (content_text title : string) (link : Link) : bool :=
  PyStr.contains (PyStr.lower (l_text link)) (PyStr.lower content_text)
  || PyStr.contains (l_text link) title.

Definition append_link (e : Event) (link : Link) : Event :=
  {| e_title := e_title e;
     e_date := e_date e;
     e_categories := e_categories e;
     e_description := e_description e;
     e_links := e_links e ++ [link] |}.

(** The body of [if section['content']:]. *)
Definition build_event (links : list Link) (year : Z) (section : Sec) : Event :=
  let content_text := PyStr.join " " (s_content section) in
  let event :=
    {| e_title := s_title section;
       e_date := extract_dates content_text year;
       e_categories := categorize_content (s_title section +:+ " " +:+ content_text);
       e_description := describe content_text;
       e_links := [] |} in
  fold_left (fun event link =>
               if link_in_section content_text (s_title section) link
               then append_link event link
               else event)
            links event.

(** Truthiness of a list: non-empty. *)
Definition nonempty {A : Type} (l : list A) : bool :=
  match l with [] => false | _ :: _ => true end.

(** [events = []; for section in sections: ...] *)
Definition build_events (sections : list Sec) (links : list Link) (year : Z)
  : list Event :=
  fold_left (fun events section =>
               if nonempty (s_content section)
               then events ++ [build_event links year section]
               else events)
            sections [].

(* ================================================================== *)
(** * The world, the collaborators and the orchestration *)
(* ================================================================== *)

(** What [json.dump] is given. *)
Inductive FileContent : Type :=
| YearJson (data : YearResult)
| CombinedJson (results : list (Z * YearResult)).

(** The observable state: lines printed, directories made, files
    written (in order, a later write to a path replacing an earlier
    one) and the number of clock readings so far.  Making the
    directory and writing a file are taken to succeed. *)
Record World : Type := mkWorld {
  stdout : list string;
  dirs : list string;
  files : list (string * FileContent);
  clock : nat
}.

Definition empty_world : World :=
  {| stdout := []; dirs := []; files := []; clock := 0 |}.

(** The collaborators outside the script.  A run fetches each page
    once and probes each distinct URL of a page once, so a response is
    a function of the URL. *)
Record Env : Type := mkEnv {
  (** [requests.get(url, timeout=30)] with [raise_for_status()]: the
      body, or the text of the [RequestException] *)
  requests_get : string -> string + string;
  (** [requests.head(url, timeout=10, allow_redirects=True)] *)
  requests_head : string -> (Z * string) + string;
  (** [BeautifulSoup(html, 'html.parser')] *)
  html_parser : string -> PageElement;
  (** [urllib.parse.urljoin] *)
  urljoin : string -> string -> string;
  (** [list(set(xs))]: the elements of [xs] in the set's order *)
  list_of_set : list string -> list string;
  (** [datetime.now()] at the n-th reading: its year and ISO format *)
  now_year : nat -> Z;
  now_isoformat : nat -> string;
  (** [str(Path(dir) / name)] *)
  path_str : string -> string -> string;
  (** [int(s)]; [None] when it raises [ValueError] *)
  int_of_str : string -> option Z
}.

(** Computations that print, write and read the clock. *)
Definition M (A : Type) : Type := World -> A * World.

Definition ret {A : Type} (a : A) : M A := fun w => (a, w).

Definition bind {A B : Type} (c : M A) (k : A -> M B) : M B :=
  fun w => let (a, w') := c w in k a w'.

Notation "x <- c ;; k" := (bind c (fun x => k))
  (at level 61, c at next level, right associativity).
Notation "c ;; k" := (bind c (fun _ => k))
  (at level 61, right associativity).

Definition print (line : string) : M unit :=
  fun w => (tt, {| stdout := stdout w ++ [line]; dirs := dirs w;
                   files := files w; clock := clock w |}).

Definition mkdir (d : string) : M unit :=
  fun w => (tt, {| stdout := stdout w; dirs := dirs w ++ [d];
                   files := files w; clock := clock w |}).

Definition json_dump (path : string) (c : FileContent) : M unit :=
  fun w => (tt, {| stdout := stdout w; dirs := dirs w;
                   files := files w ++ [(path, c)]; clock := clock w |}).

Definition tick : M nat :=
  fun w => (clock w, {| stdout := stdout w; dirs := dirs w;
                        files := files w; clock := S (clock w) |}).

(** [for x in xs: st = body(st, x)] *)
Fixpoint for_each {A St : Type} (xs : list A) (body : St -> A -> M St)
         (st : St) : M St :=
  match xs with
  | [] => ret st
  | x :: xs' => st' <- body st x ;; for_each xs' body st'
  end.

(** [enumerate(xs)] *)
Definition enumerate {A : Type} (xs : list A) : list (nat * A) :=
  combine (seq 0 (List.length xs)) xs.

(** [results[k] = v] on a dictionary kept in insertion order. *)
Fixpoint dict_set {V : Type} (k : Z) (v : V) (d : list (Z * V))
  : list (Z * V) :=
  match d with
  | [] => [(k, v)]
  | (k', v') :: d' =>
      if Z.eqb k' k then (k, v) :: d' else (k', v') :: dict_set k v d'
  end.

Definition str_of_nat (n : nat) : string := PyStr.str_of_int (Z.of_nat n).

(** How [main] ends. *)
Inductive Outcome : Type :=
| Returned
| Raised (exc : string).

(** The parsed command line. *)
Record Args : Type := mkArgs {
  a_year : option string;
  a_all : bool;
  a_verify_links : bool;
  a_output : string
}.

Section Orchestrator.
Variable env : Env.

Definition fetch_page (url : string) : M (option string) :=
  match requests_get env url with
  | inl text => ret (Some text)
  | inr e => print ("Error fetching " +:+ url +:+ ": " +:+ e) ;; ret None
  end.

(** One iteration of the verification loop; the loop variable [url]
    is the [url] of [scrape_year], which it rebinds. *)
Definition verify_step (n_unique : nat)
           (st : string * list LinkVerification) (iu : nat * string)
  : M (string * list LinkVerification) :=
  let (i, url) := iu in
  print ("  Checking [" +:+ str_of_nat (i + 1) +:+ "/"
         +:+ str_of_nat (Nat.min n_unique 50) +:+ "]: "
         +:+ PyStr.slice_to 60 url +:+ "...") ;;
  ret (url, snd st ++ [verify_link (requests_head env) url]).

(** [if verify_links:] and its body. *)
Definition verify_all (verify_links : bool) (url : string) (links : list Link)
  : M (string * list LinkVerification) :=
  let link_verification := [] in
  if verify_links
  then
    print ("Verifying " +:+ str_of_nat (List.length links) +:+ " links...") ;;
    let unique_urls := list_of_set env (map l_url links) in
    for_each (enumerate (firstn 50 unique_urls))
             (verify_step (List.length unique_urls))
             (url, link_verification)
  else ret (url, link_verification).

Definition scrape_year (year : Z) (verify_links : bool)
  : M (option YearResult) :=
  let url := get_url_for_year year in
  print ("Fetching " +:+ PyStr.str_of_int year +:+ " from " +:+ url +:+ "...") ;;
  html <- fetch_page url ;;
  match html with
  | None => ret None
  | Some html =>
      if negb (PyStr.truthy html) then ret None
      else
        let soup := html_parser env html in
        let title_elem :=
          match find (has_name "h1") soup with
          | Some e => Some e
          | None => find (has_name "title") soup
          end in
        let title :=
          match title_elem with
          | Some e => get_text_strip e
          | None => "Year in LLMs " +:+ PyStr.str_of_int year
          end in
        let links := extract_links (urljoin env) soup url in
        let sections := extract_headings_and_sections soup in
        let events := build_events sections links year in
        st <- verify_all verify_links url links ;;
        let (url, link_verification) := st in
        t <- tick ;;
        ret (Some {| y_year := year;
                     y_source_url := url;
                     y_title := title;
                     y_scraped_at := now_isoformat env t;
                     y_events := events;
                     y_all_links := links;
                     y_sections := sections;
                     y_link_verification :=
                       if verify_links then Some link_verification else None |})
  end.

(** The body of [for year in years:] in [main]. *)
Definition main_step (args : Args) (results : list (Z * YearResult))
           (year : Z) : M (list (Z * YearResult)) :=
  data <- scrape_year year (a_verify_links args) ;;
  match data with
  | Some data =>
      let results := dict_set year data results in
      let output_file :=
        path_str env (a_output args)
                 ("year_in_llms_" +:+ PyStr.str_of_int year +:+ ".json") in
      json_dump output_file (YearJson data) ;;
      print ("Saved " +:+ output_file) ;;
      ret results
  | None => ret results
  end.

(** One entry of the summary. *)
Definition summary_step (_ : unit) (entry : Z * YearResult) : M unit :=
  let (year, data) := entry in
  print (PyStr.str_of_int year +:+ ": "
         +:+ str_of_nat (List.length (y_events data)) +:+ " events, "
         +:+ str_of_nat (List.length (y_all_links data)) +:+ " links") ;;
  match y_link_verification data with
  | Some (v :: vs) =>
      let valid := List.length (filter v_valid (v :: vs)) in
      print ("  Links verified: " +:+ str_of_nat valid +:+ "/"
             +:+ str_of_nat (List.length (v :: vs)) +:+ " valid")
  | _ => ret tt
  end.

Definition newline : string := String (ascii_of_nat 10) EmptyString.

Definition summary_header : string := newline +:+ "=== Summary ===".

(** "Determine which years to scrape"; [None] when [int] raises. *)
Definition select_years (args : Args) : M (option (list Z)) :=
  if a_all args then ret (Some (map fst URL_PATTERNS))
  else
    match a_year args with
    | Some (String c y) => ret (option_map (fun n => [n]) (int_of_str env (String c y)))
    | _ => t <- tick ;; ret (Some [now_year env t])
    end.

Definition main (args : Args) : M Outcome :=
  years <- select_years args ;;
  match years with
  | None => ret (Raised "ValueError")
  | Some years =>
      mkdir (a_output args) ;;
      results <- for_each years (main_step args) [] ;;
      (if nonempty results
       then
         let combined_file := path_str env (a_output args) "year_in_llms_all.json" in
         json_dump combined_file (CombinedJson results) ;;
         print ("Saved combined data to " +:+ combined_file)
       else ret tt) ;;
      print summary_header ;;
      for_each results summary_step tt ;;
      ret Returned
  end.

End Orchestrator.

(* ================================================================== *)
(** * Reference resolution (RFC 3986, section 5.2) *)
(* ================================================================== *)

(** [urljoin] belongs to Python's standard library and is a parameter
    of [extract_links].  This module gives the resolution algorithm of
    RFC 3986, which [urljoin] follows, to have a resolver to run the
    extractor with. *)
Module Url.

Definition is_char (k : ascii) (c : ascii) : bool := Ascii.eqb k c.

Definition is_scheme_char (c : ascii) : bool :=
  PyStr.isalpha_ascii c || PyStr.isdigit c
  || is_char "+" c || is_char "-" c || is_char "." c.

(** The longest prefix of [s] whose characters satisfy [p], and the rest. *)
Fixpoint span (p : ascii -> bool) (s : string) : string * string :=
  match s with
  | EmptyString => (EmptyString, EmptyString)
  | String c s' =>
      if p c
      then let (a, b) := span p s' in (String c a, b)
      else (EmptyString, s)
  end.

(** [scheme ":" rest], with scheme = ALPHA *( ALPHA / DIGIT / "+" / "-" / "." ). *)
Definition split_scheme (s : string) : option (string * string) :=
  match span is_scheme_char s with
  | (String c pre, String colon rest) =>
      if PyStr.isalpha_ascii c && is_char ":" colon
      then Some (String c pre, rest)
      else None
  | _ => None
  end.

(** A URL is absolute when it starts with a scheme. *)
Definition is_absolute (s : string) : bool :=
  match split_scheme s with Some _ => true | None => false end.

Record parts : Type := mkParts {
  scheme : option string;
  authority : option string;
  path : string;
  query : option string;
  fragment : option string
}.

Definition drop2 (s : string) : string :=
  match s with String _ (String _ r) => r | _ => EmptyString end.

Definition parse (s : string) : parts :=
  let (sch, r1) :=
    match split_scheme s with
    | Some (a, r) => (Some a, r)
    | None => (None, s)
    end in
  let (auth, r2) :=
    if PyStr.startswith r1 "//"
    then let (a, r) :=
           span (fun c => negb (is_char "/" c || is_char "?" c || is_char "#" c))
                (drop2 r1) in
         (Some a, r)
    else (None, r1) in
  let (pth, r3) := span (fun c => negb (is_char "?" c || is_char "#" c)) r2 in
  let (qry, r4) :=
    match r3 with
    | String c r =>
        if is_char "?" c
        then let (q, r') := span (fun c => negb (is_char "#" c)) r in (Some q, r')
        else (None, r3)
    | EmptyString => (None, r3)
    end in
  let frg :=
    match r4 with
    | String c r => if is_char "#" c then Some r else None
    | EmptyString => None
    end in
  {| scheme := sch; authority := auth; path := pth; query := qry; fragment := frg |}.

(** [s] up to, and without, its last "/"; empty when it has none. *)
Fixpoint drop_last_segment (s : string) : string :=
  match s with
  | EmptyString => EmptyString
  | String c s' =>
      if PyStr.contains "/" s' then String c (drop_last_segment s') else EmptyString
  end.

Fixpoint drop (n : nat) (s : string) : string :=
  match n, s with
  | O, _ => s
  | S _, EmptyString => EmptyString
  | S n', String _ s' => drop n' s'
  end.

(** Section 5.2.4; every round shortens the input buffer, so its length
    bounds the number of rounds. *)
Fixpoint remove_dots (fuel : nat) (input output : string) : string :=
  match fuel with
  | O => output
  | S fuel' =>
      match input with
      | EmptyString => output
      | String c rest =>
          if PyStr.startswith input "../" then remove_dots fuel' (drop 3 input) output
          else if PyStr.startswith input "./" then remove_dots fuel' (drop 2 input) output
          else if PyStr.startswith input "/./" then remove_dots fuel' (drop 2 input) output
          else if String.eqb input "/." then remove_dots fuel' "/" output
          else if PyStr.startswith input "/../"
               then remove_dots fuel' (drop 3 input) (drop_last_segment output)
          else if String.eqb input "/.."
               then remove_dots fuel' "/" (drop_last_segment output)
          else if String.eqb input "." || String.eqb input ".."
               then remove_dots fuel' EmptyString output
          else
            let (seg, rest') := span (fun d => negb (is_char "/" d)) rest in
            remove_dots fuel' rest' (output +:+ String c seg)
      end
  end.

Definition remove_dot_segments (p : string) : string :=
  remove_dots (S (String.length p)) p EmptyString.

(** Section 5.2.3. *)
Definition merge (base : parts) (ref_path : string) : string :=
  match authority base, path base with
  | Some _, EmptyString => "/" +:+ ref_path
  | _, _ =>
      (if PyStr.contains "/" (path base)
       then drop_last_segment (path base) +:+ "/"
       else EmptyString) +:+ ref_path
  end.

(** Section 5.2.2, strict. *)
Definition resolve (base ref : parts) : parts :=
  match scheme ref with
  | Some _ =>
      {| scheme := scheme ref; authority := authority ref;
         path := remove_dot_segments (path ref);
         query := query ref; fragment := fragment ref |}
  | None =>
      match authority ref with
      | Some _ =>
          {| scheme := scheme base; authority := authority ref;
             path := remove_dot_segments (path ref);
             query := query ref; fragment := fragment ref |}
      | None =>
          match path ref with
          | EmptyString =>
              {| scheme := scheme base; authority := authority base;
                 path := path base;
                 query := match query ref with
                          | Some q => Some q
                          | None => query base
                          end;
                 fragment := fragment ref |}
          | String c _ =>
              {| scheme := scheme base; authority := authority base;
                 path := if is_char "/" c
                         then remove_dot_segments (path ref)
                         else remove_dot_segments (merge base (path ref));
                 query := query ref; fragment := fragment ref |}
          end
      end
  end.

(** Section 5.3. *)
Definition recompose (t : parts) : string :=
  match scheme t with Some s => s +:+ ":" | None => EmptyString end
  +:+ match authority t with Some a => "//" +:+ a | None => EmptyString end
  +:+ path t
  +:+ match query t with Some q => "?" +:+ q | None => EmptyString end
  +:+ match fragment t with Some f => "#" +:+ f | None => EmptyString end.

Definition join (base ref : string) : string :=
  recompose (resolve (parse base) (parse ref)).

End Url.

(* ================================================================== *)
(** * Specification-side definitions *)
(* ================================================================== *)

(** [l1] is [l2] with some elements left out, order kept. *)
Inductive Subseq {A : Type} : list A -> list A -> Prop :=
| Subseq_nil : Subseq [] []
| Subseq_skip x l1 l2 : Subseq l1 l2 -> Subseq l1 (x :: l2)
| Subseq_keep x l1 l2 : Subseq l1 l2 -> Subseq (x :: l1) (x :: l2).

(** [sub] occurs in [s]. *)
Definition Substring (sub s : string) : Prop :=
  exists pre post, s = pre +:+ sub +:+ post.

(** Every character of [s] satisfies [p]. *)
Fixpoint all_chars (p : ascii -> bool) (s : string) : bool :=
  match s with
  | EmptyString => true
  | String c s' => p c && all_chars p s'
  end.

(** The categories with their keyword lists, in evaluation order. *)
Definition category_table : list (string * list string) :=
  [ ("models", kw_models); ("tools", kw_tools); ("concepts", kw_concepts);
    ("pricing", kw_pricing); ("companies", kw_companies);
    ("research", kw_research) ].

(** The categories whose predicate fires on [text], in table order. *)
Definition fired (text : string) : list string :=
  map fst (filter (fun row => any_kw (snd row) (PyStr.lower text)) category_table).

Definition is_heading (e : PageElement) : bool := name_in ["h2"; "h3"] e.

(** The sibling tags before the first heading of rank 2 or 3. *)
Fixpoint before_heading (siblings : list PageElement) : list PageElement :=
  match siblings with
  | [] => []
  | sibling :: rest =>
      if is_heading sibling then [] else sibling :: before_heading rest
  end.

(** The text of the paragraphs among [tags]. *)
Definition paragraphs (tags : list PageElement) : list string :=
  map get_text_strip (filter (has_name "p") tags).

(** The sibling tags before the first heading of equal or higher
    priority than [level], that is of rank at most [level]: the reading
    of "until the next heading of equal-or-higher priority". *)
Fixpoint before_heading_of_rank (level : Z) (siblings : list PageElement)
  : list PageElement :=
  match siblings with
  | [] => []
  | sibling :: rest =>
      if is_heading sibling && Z.leb (level_of sibling) level
      then []
      else sibling :: before_heading_of_rank level rest
  end.

(** The Section Extractor under that reading. *)
Definition sections_by_priority (soup : PageElement) : list Sec :=
  map (fun h =>
         {| s_title := get_text_strip (node h);
            s_level := level_of (node h);
            s_content :=
              paragraphs (before_heading_of_rank (level_of (node h))
                                                 (find_next_siblings h)) |})
      (find_all is_heading (article_of soup)).

(** ** A scanner for dates, without backtracking *)

(** [s] without a leading [w], compared without regard to case. *)
Fixpoint ci_strip_prefix (w s : string) : option string :=
  match w with
  | EmptyString => Some s
  | String c w' =>
      match s with
      | EmptyString => None
      | String d s' =>
          if Re.chr_match true c d then ci_strip_prefix w' s' else None
      end
  end.

(** The first of [names] that starts [s], as it is spelled in [s], and
    what follows it. *)
Fixpoint month_at (names : list string) (s : string)
  : option (string * string) :=
  match names with
  | [] => None
  | m :: names' =>
      match ci_strip_prefix m s with
      | Some rest => Some (Re.consumed s rest, rest)
      | None => month_at names' s
      end
  end.

(** One or two digits, when [s] starts with a digit. *)
Definition take_day (s : string) : option string * string :=
  match s with
  | String a r =>
      if PyStr.isdigit a
      then match r with
           | String b r' =>
               if PyStr.isdigit b
               then (Some (String a (String b EmptyString)), r')
               else (Some (String a EmptyString), r)
           | EmptyString => (Some (String a EmptyString), r)
           end
      else (None, s)
  | EmptyString => (None, s)
  end.

Definition skip_comma (s : string) : string :=
  match s with
  | String c r => if Re.chr_match true "," c then r else s
  | EmptyString => s
  end.

(** Four digits, when [s] starts with four digits. *)
Definition take_year (s : string) : option string :=
  match s with
  | String a (String b (String c (String d _))) =>
      if PyStr.isdigit a && PyStr.isdigit b && PyStr.isdigit c && PyStr.isdigit d
      then Some (String a (String b (String c (String d EmptyString))))
      else None
  | _ => None
  end.

(** What follows a month name: blanks, a day, a comma, blanks, a year,
    each optional and each taken as soon as it is there. *)
Definition scan_tail (s : string) : option string * option string :=
  let (day, r) := take_day (PyStr.lstrip s) in
  (day, take_year (PyStr.lstrip (skip_comma r))).

(** A date that starts [s]: the month as spelled, the day, the year. *)
Definition scan_date (s : string)
  : option (string * option string * option string) :=
  match month_at month_names s with
  | None => None
  | Some (month, rest) =>
      let (day, yr) := scan_tail rest in Some (month, day, yr)
  end.

(** The leftmost date in [s]. *)
Fixpoint find_date (s : string)
  : option (string * option string * option string) :=
  match scan_date s with
  | Some d => Some d
  | None =>
      match s with
      | EmptyString => None
      | String _ s' => find_date s'
      end
  end.

(** The groups that a match object holds for a scanned date. *)
Definition group_of (n : nat) (v : option string) : Re.groups :=
  match v with Some x => [(n, x)] | None => [] end.

Definition groups_of (d : string * option string * option string)
  : Re.groups :=
  let '(month, day, yr) := d in
  group_of 3 yr ++ group_of 2 day ++ [(1, month)].

(** The date that [extract_dates] prints for a scanned date. *)
Definition format_date (year : Z)
           (d : option (string * option string * option string)) : string :=
  match d with
  | None => PyStr.str_of_int year
  | Some (month, day, yr) =>
      let found_year :=
        match yr with Some y => y | None => PyStr.str_of_int year end in
      match day with
      | Some dd => month +:+ " " +:+ dd +:+ ", " +:+ found_year
      | None => month +:+ " " +:+ found_year
      end
  end.

(** The part of [month_pattern] after the month group. *)
Definition tail_pattern : Re.regex :=
  Re.Cat (Re.Rep PyStr.isspace 0 None)
 (Re.Cat (Re.Opt (Re.Grp 2 (Re.Rep PyStr.isdigit 1 (Some 2))))
 (Re.Cat (Re.Opt (Re.Chr ","))
 (Re.Cat (Re.Rep PyStr.isspace 0 None)
         (Re.Opt (Re.Grp 3 (Re.Rep PyStr.isdigit 4 (Some 4))))))).

(** The continuation that ends a match. *)
Definition done (_ : string) (g : Re.groups) : option Re.groups := Some g.

(** The year's fetch yields nothing: an error, or an empty body. *)
Definition fetch_fails (env : Env) (year : Z) : bool :=
  match requests_get env (get_url_for_year year) with
  | inl html => negb (PyStr.truthy html)
  | inr _ => true
  end.

(** The world after more lines have been printed. *)
Definition add_out (lines : list string) (w : World) : World :=
  {| stdout := stdout w ++ lines; dirs := dirs w;
     files := files w; clock := clock w |}.

(** The record made for one URL. *)
Definition probe (env : Env) : string -> LinkVerification :=
  verify_link (requests_head env).

(** The lines that fetching a year prints. *)
Definition fetch_log (env : Env) (year : Z) : list string :=
  ("Fetching " +:+ PyStr.str_of_int year +:+ " from "
   +:+ get_url_for_year year +:+ "...")
  :: match requests_get env (get_url_for_year year) with
     | inl _ => []
     | inr e => ["Error fetching " +:+ get_url_for_year year +:+ ": " +:+ e]
     end.


(* ================================================================== *)
(** * Definitions for the further properties *)
(* ================================================================== *)

(** ** Names and years *)

(** A character of the decimal form of an integer. *)
Definition is_year_char (c : ascii) : bool :=
  PyStr.isdigit c || Url.is_char "-" c.

(** [f"year_in_llms_{year}.json"] *)
Definition year_file_name (year : Z) : string :=
  "year_in_llms_" +:+ PyStr.str_of_int year +:+ ".json".

Definition combined_file_name : string := "year_in_llms_all.json".

(** ** Texts *)

(** [kw] holds no space. *)
Definition no_blank (kw : string) : bool :=
  all_chars (fun c => negb (Ascii.eqb c " ")) kw.

(** One or two digits. *)
Definition day_shaped (d : string) : Prop :=
  all_chars PyStr.isdigit d = true /\ 1 <= String.length d <= 2.

(** Four digits. *)
Definition year_shaped (y : string) : Prop :=
  all_chars PyStr.isdigit y = true /\ String.length y = 4.

Definition first_char (s : string) : option ascii :=
  match s with EmptyString => None | String c _ => Some c end.

Fixpoint last_char (s : string) : option ascii :=
  match s with
  | EmptyString => None
  | String c s' => match last_char s' with Some d => Some d | None => Some c end
  end.

Definition not_blank (c : option ascii) : Prop :=
  match c with Some x => PyStr.isspace x = false | None => True end.

(** [s] neither starts nor ends with a blank. *)
Definition trimmed (s : string) : Prop :=
  not_blank (first_char s) /\ not_blank (last_char s).


(** ** Pages *)


(** A sibling that the section loop looks at: a heading or a paragraph. *)
Definition relevant_sibling (e : PageElement) : bool :=
  is_heading e || has_name "p" e.

(** The siblings after the first heading. *)
Fixpoint after_first_heading (siblings : list PageElement) : list PageElement :=
  match siblings with
  | [] => []
  | e :: rest => if is_heading e then rest else after_first_heading rest
  end.

(** No heading of rank 2 or 3 lies below [e]. *)
Definition no_heading_inside (e : PageElement) : Prop :=
  find_all is_heading e = [].

(** The headings among [cs], each with the siblings after it. *)
Fixpoint top_headings (cs : list PageElement) : list located :=
  match cs with
  | [] => []
  | c :: rest =>
      (if is_tag c && is_heading c then [Loc c rest] else []) ++ top_headings rest
  end.

(** ** Results of a year *)

(** The title that [scrape_year] gives a page. *)
Definition title_of (soup : PageElement) (year : Z) : string :=
  match find (has_name "h1") soup with
  | Some e => get_text_strip e
  | None =>
      match find (has_name "title") soup with
      | Some e => get_text_strip e
      | None => "Year in LLMs " +:+ PyStr.str_of_int year
      end
  end.

(** The URLs that verification probes for a list of links. *)
Definition probed_urls (env : Env) (links : list Link) : list string :=
  firstn 50 (list_of_set env (map l_url links)).

(** The result that [scrape_year] assembles from a fetched page, the
    clock being at its reading number [reading]. *)
Definition year_result (env : Env) (year : Z) (verify_links : bool)
           (html : string) (reading : nat) : YearResult :=
  let url := get_url_for_year year in
  let soup := html_parser env html in
  let links := extract_links (urljoin env) soup url in
  let sections := extract_headings_and_sections soup in
  {| y_year := year;
     y_source_url :=
       if verify_links then last (probed_urls env links) url else url;
     y_title := title_of soup year;
     y_scraped_at := now_isoformat env reading;
     y_events := build_events sections links year;
     y_all_links := links;
     y_sections := sections;
     y_link_verification :=
       if verify_links then Some (map (probe env) (probed_urls env links))
       else None |}.

(** The world after printing [lines] and reading the clock once. *)
Definition after_reading (lines : list string) (w : World) : World :=
  {| stdout := stdout w ++ lines; dirs := dirs w;
     files := files w; clock := S (clock w) |}.

(** ** Runs of [main] *)





(* ================================================================== *)
(** * Sample inputs *)
(* ================================================================== *)

(** Two sections whose content both mention the text of one link. *)
Definition shared_link : Link :=
  {| l_text := "Claude"; l_url := "https://example.com/claude" |}.

Definition shared_sections : list Sec :=
  [ {| s_title := "Models"; s_level := 2; s_content := ["CLAUDE got better."] |};
    {| s_title := "Tools"; s_level := 2; s_content := ["Tools built on claude."] |} ].

(** A rank-2 heading whose paragraphs are interrupted by a rank-3
    heading. *)
Definition nested_headings : PageElement :=
  Tag "[document]" []
    [ Tag "h2" [] [NavigableString "Intro"];
      Tag "p" [] [NavigableString " first "];
      Tag "h3" [] [NavigableString "Detail"];
      Tag "p" [] [NavigableString "second"];
      Tag "h2" [] [NavigableString "Next"];
      Tag "p" [] [NavigableString "third"] ].


Definition example_url : string := "https://example.com/2025/post/".

(** [n] anchors with distinct targets /l0, /l1, ... *)
Definition numbered_anchors (n : nat) : list PageElement :=
  map (fun i => Tag "a" [("href", "/l" +:+ str_of_nat i)]
                    [NavigableString ("link " +:+ str_of_nat i)])
      (seq 0 n).

(** A page with sixty distinct links, the first of them twice. *)
Definition crowded_page : PageElement :=
  Tag "[document]" []
    [ Tag "article" []
        (Tag "a" [("href", "/l0")] [NavigableString "again"]
         :: numbered_anchors 60) ].

(** Collaborators to run the orchestration with: every page is
    fetched as [crowded_page], targets ending in 7 answer 404, the
    target /l3 cannot be reached, and a set lists its elements in order
    of first occurrence. *)
Definition sample_env : Env :=
  {| requests_get := fun _ => inl "<html>";
     requests_head :=
       fun url =>
         if String.eqb url "https://simonwillison.net/l3"
         then inr "ConnectTimeout"
         else if PyStr.contains "7" (Url.drop 25 url)
              then inl (404%Z, url)
              else inl (200%Z, url);
     html_parser := fun _ => crowded_page;
     urljoin := Url.join;
     list_of_set := nodup string_dec;
     now_year := fun _ => 2025%Z;
     now_isoformat := fun _ => "2025-12-31T12:00:00";
     path_str := fun d f => d +:+ "/" +:+ f;
     int_of_str := fun _ => Some 2025%Z |}.



(** Two rank-2 headings, with two paragraphs and one. *)
Definition two_sections_page : PageElement :=
  Tag "[document]" []
    [ Tag "h2" [] [NavigableString "Intro"];
      Tag "p" [] [NavigableString "One."];
      Tag "p" [] [NavigableString "Two."];
      Tag "h2" [] [NavigableString "Models"];
      Tag "p" [] [NavigableString "Three."] ].

Definition big_models_page : PageElement :=
  Tag "[document]" []
    [ Tag "h2" [] [NavigableString "Big Models"];
      Tag "p" []
        [NavigableString
           "Claude and GPT models improved significantly, costing $20/month"] ].

(** [c * n] *)
Fixpoint replicate (n : nat) (c : ascii) : string :=
  match n with
  | O => EmptyString
  | S n' => String c (replicate n' c)
  end.

(** The base and the references of the examples of RFC 3986,
    section 5.4, with the results it gives. *)
Definition rfc_base : string := "http://a/b/c/d;p?q".

Definition rfc_examples : list (string * string) :=
  [ ("g:h", "g:h"); ("g", "http://a/b/c/g"); ("./g", "http://a/b/c/g");
    ("g/", "http://a/b/c/g/"); ("/g", "http://a/g"); ("//g", "http://g");
    ("?y", "http://a/b/c/d;p?y"); ("g?y", "http://a/b/c/g?y");
    ("#s", "http://a/b/c/d;p?q#s"); ("g#s", "http://a/b/c/g#s");
    ("g?y#s", "http://a/b/c/g?y#s"); (";x", "http://a/b/c/;x");
    ("g;x", "http://a/b/c/g;x"); ("g;x?y#s", "http://a/b/c/g;x?y#s");
    ("", "http://a/b/c/d;p?q"); (".", "http://a/b/c/"); ("./", "http://a/b/c/");
    ("..", "http://a/b/"); ("../", "http://a/b/"); ("../g", "http://a/b/g");
    ("../..", "http://a/"); ("../../", "http://a/"); ("../../g", "http://a/g");
    ("../../../g", "http://a/g"); ("../../../../g", "http://a/g");
    ("/./g", "http://a/g"); ("/../g", "http://a/g"); ("g.", "http://a/b/c/g.");
    (".g", "http://a/b/c/.g"); ("g..", "http://a/b/c/g..");
    ("..g", "http://a/b/c/..g"); ("./../g", "http://a/b/g");
    ("./g/.", "http://a/b/c/g/"); ("g/./h", "http://a/b/c/g/h");
    ("g/../h", "http://a/b/c/h"); ("g;x=1/./y", "http://a/b/c/g;x=1/y");
    ("g;x=1/../y", "http://a/b/c/y"); ("g?y/./x", "http://a/b/c/g?y/./x");
    ("g#s/../x", "http://a/b/c/g#s/../x"); ("http:g", "http:g") ].







(* ================================================================== *)
(** * Facts about the string operations *)
(* ================================================================== *)


Lemma append_assoc (a b c : string) : (a +:+ b) +:+ c = a +:+ (b +:+ c).
Proof. induction a as [|x a IH]; simpl; [reflexivity | now rewrite IH]. Qed.

Lemma length_append (a b : string) :
  String.length (a +:+ b) = String.length a + String.length b.
Proof. induction a as [|x a IH]; simpl; [reflexivity | now rewrite IH]. Qed.

Lemma startswith_iff (s p : string) :
  PyStr.startswith s p = true <-> exists post, s = p +:+ post.
Proof.
  revert s. induction p as [|a p IH]; intros s; simpl.
  - split; [intros _; now exists s | reflexivity].
  - destruct s as [|b s].
    + split; [discriminate | intros [post H]; discriminate].
    + rewrite andb_true_iff, Ascii.eqb_eq, IH. split.
      * intros [-> [post ->]]. now exists post.
      * intros [post H]. injection H as -> ->. split; [reflexivity | now exists post].
Qed.

Lemma contains_iff (sub s : string) :
  PyStr.contains sub s = true <-> Substring sub s.
Proof.
  unfold Substring. induction s as [|c s IH].
  - simpl. rewrite orb_false_r, startswith_iff. split.
    + intros [post H]. exists "", post. exact H.
    + intros [pre [post H]]. destruct pre; simpl in H.
      * now exists post.
      * discriminate.
  - change (PyStr.contains sub (String c s))
      with (PyStr.startswith (String c s) sub || PyStr.contains sub s).
    rewrite orb_true_iff, startswith_iff, IH. split.
    + intros [[post H] | [pre [post H]]].
      * exists "", post. exact H.
      * exists (String c pre), post. simpl. now rewrite H.
    + intros [pre [post H]]. destruct pre as [|d pre]; simpl in H.
      * left. now exists post.
      * right. injection H as _ H. now exists pre, post.
Qed.

Lemma slice_to_length (n : nat) (s : string) :
  n <= String.length s -> String.length (PyStr.slice_to n s) = n.
Proof.
  revert s. induction n as [|n IH]; intros s H; simpl.
  - reflexivity.
  - destruct s as [|c s]; simpl in *; [lia |]. rewrite IH; lia.
Qed.

Lemma slice_to_all (n : nat) (s : string) :
  String.length s <= n -> PyStr.slice_to n s = s.
Proof.
  revert s. induction n as [|n IH]; intros s H.
  - destruct s; simpl in *; [reflexivity | lia].
  - destruct s as [|c s]; simpl in *; [reflexivity |]. rewrite IH; [reflexivity | lia].
Qed.

Lemma truthy_iff (s : string) : PyStr.truthy s = true <-> s <> "".
Proof. destruct s; simpl; split; congruence. Qed.

(* ================================================================== *)
(** * Facts about the loops *)
(* ================================================================== *)

(** A loop that appends [f x] for the [x] that pass [p] computes a
    filter followed by a map. *)
Lemma fold_left_append {A B : Type} (p : A -> bool) (f : A -> B)
      (l : list A) (acc : list B) :
  fold_left (fun acc x => if p x then acc ++ [f x] else acc) l acc
  = acc ++ map f (filter p l).
Proof.
  revert acc. induction l as [|x l IH]; intros acc; simpl.
  - now rewrite app_nil_r.
  - rewrite IH. destruct (p x); simpl; [now rewrite <- app_assoc | reflexivity].
Qed.

Lemma filter_all {A : Type} (l : list A) : filter (fun _ => true) l = l.
Proof. induction l as [|x l IH]; simpl; [reflexivity | now rewrite IH]. Qed.

Lemma Subseq_refl {A : Type} (l : list A) : Subseq l l.
Proof. induction l; constructor; assumption. Qed.

Lemma Subseq_filter {A : Type} (p : A -> bool) (l : list A) :
  Subseq (filter p l) l.
Proof.
  induction l as [|x l IH]; simpl; [constructor |].
  destruct (p x); constructor; assumption.
Qed.

Lemma Subseq_map {A B : Type} (f : A -> B) (l1 l2 : list A) :
  Subseq l1 l2 -> Subseq (map f l1) (map f l2).
Proof. induction 1; simpl; constructor; assumption. Qed.

Lemma build_events_eq (sections : list Sec) (links : list Link) (year : Z) :
  build_events sections links year
  = map (build_event links year)
        (filter (fun s => nonempty (s_content s)) sections).
Proof.
  unfold build_events.
  exact (fold_left_append (fun s => nonempty (s_content s))
                          (build_event links year) sections []).
Qed.

(** The inner loop of [build_event] only touches the [links] field. *)
Lemma build_event_loop (content_text title : string) (links : list Link)
      (e : Event) :
  fold_left (fun event link =>
               if link_in_section content_text title link
               then append_link event link
               else event)
            links e
  = {| e_title := e_title e;
       e_date := e_date e;
       e_categories := e_categories e;
       e_description := e_description e;
       e_links := e_links e ++ filter (link_in_section content_text title) links |}.
Proof.
  revert e. induction links as [|l links IH]; intros e; simpl.
  - rewrite app_nil_r. now destruct e.
  - rewrite IH. destruct (link_in_section content_text title l); simpl.
    + now rewrite <- app_assoc.
    + reflexivity.
Qed.

Lemma build_event_eq (links : list Link) (year : Z) (section : Sec) :
  build_event links year section
  = let content_text := PyStr.join " " (s_content section) in
    {| e_title := s_title section;
       e_date := extract_dates content_text year;
       e_categories := categorize_content (s_title section +:+ " " +:+ content_text);
       e_description := describe content_text;
       e_links := filter (link_in_section content_text (s_title section)) links |}.
Proof. unfold build_event. now rewrite build_event_loop. Qed.

Lemma Forall2_map_r {A B : Type} (P : A -> B -> Prop) (f : A -> B) (l : list A) :
  (forall x, P x (f x)) -> Forall2 P l (map f l).
Proof. intros H. induction l; simpl; constructor; auto. Qed.

(* ================================================================== *)
(** * The categorizer *)
(* ================================================================== *)

Lemma categorize_content_fired (text : string) :
  categorize_content text
  = match fired text with [] => ["concepts"] | c :: cs => c :: cs end.
Proof.
  unfold categorize_content, fired, category_table.
  cbn [filter map fst snd].
  destruct (any_kw kw_models (PyStr.lower text));
    destruct (any_kw kw_tools (PyStr.lower text));
    destruct (any_kw kw_concepts (PyStr.lower text));
    destruct (any_kw kw_pricing (PyStr.lower text));
    destruct (any_kw kw_companies (PyStr.lower text));
    destruct (any_kw kw_research (PyStr.lower text));
    reflexivity.
Qed.

Lemma categorize_content_nonempty (text : string) :
  categorize_content text <> [].
Proof.
  rewrite categorize_content_fired. destruct (fired text); discriminate.
Qed.

Lemma categorize_content_subseq (text : string) :
  Subseq (categorize_content text) (map fst category_table).
Proof.
  rewrite categorize_content_fired.
  destruct (fired text) as [|c cs] eqn:E.
  - simpl. do 2 apply Subseq_skip. apply Subseq_keep.
    repeat apply Subseq_skip. apply Subseq_nil.
  - rewrite <- E. unfold fired. apply Subseq_map, Subseq_filter.
Qed.

Lemma Subseq_incl {A : Type} (l1 l2 : list A) : Subseq l1 l2 -> incl l1 l2.
Proof.
  induction 1 as [|x l1 l2 _ IH|x l1 l2 _ IH]; intros y Hy.
  - exact Hy.
  - right. now apply IH.
  - destruct Hy as [-> | Hy]; [now left | right; now apply IH].
Qed.

Lemma fired_none (text : string) :
  (forall row, In row category_table ->
               any_kw (snd row) (PyStr.lower text) = false) ->
  fired text = [].
Proof.
  intros H. unfold fired.
  induction category_table as [|row tbl IH]; simpl; [reflexivity |].
  rewrite (H row (or_introl eq_refl)). apply IH.
  intros r Hr. apply H. now right.
Qed.

(** C1. For every text the categorizer returns a non-empty list of
    categories, all among models, tools, concepts, pricing, companies and
    research, in that fixed order: the categories whose keyword predicate
    fires, or exactly ["concepts"] when none fires.  Hence every event
    that the event builder produces has a non-empty list of
    categories. *)
Theorem C1_categorizer_nonempty_ordered :
  forall text : string,
    categorize_content text <> []
    /\ incl (categorize_content text)
            ["models"; "tools"; "concepts"; "pricing"; "companies"; "research"]
    /\ Subseq (categorize_content text)
              ["models"; "tools"; "concepts"; "pricing"; "companies"; "research"]
    /\ categorize_content text
       = match fired text with [] => ["concepts"] | c :: cs => c :: cs end
    /\ ((forall row, In row category_table ->
                     any_kw (snd row) (PyStr.lower text) = false) ->
        categorize_content text = ["concepts"])
    /\ forall (sections : list Sec) (links : list Link) (year : Z),
        Forall (fun e => e_categories e <> [])
               (build_events sections links year).
Proof.
  intros text.
  pose proof (categorize_content_subseq text) as Hsub.
  change (map fst category_table)
    with ["models"; "tools"; "concepts"; "pricing"; "companies"; "research"]
    in Hsub.
  split; [apply categorize_content_nonempty |].
  split; [now apply Subseq_incl |].
  split; [exact Hsub |].
  split; [apply categorize_content_fired |].
  split.
  - intros H. rewrite categorize_content_fired, (fired_none text H). reflexivity.
  - intros sections links year. rewrite build_events_eq.
    apply Forall_map, Forall_forall. intros s _.
    rewrite build_event_eq. simpl. apply categorize_content_nonempty.
Qed.

(* ================================================================== *)
(** * The event builder *)
(* ================================================================== *)

Lemma describe_short (t : string) :
  String.length t <= 300 -> describe t = t.
Proof.
  intros H. unfold describe, PyStr.len.
  destruct (Z.gtb_spec (Z.of_nat (String.length t)) 300); [lia | reflexivity].
Qed.

Lemma describe_long (t : string) :
  300 < String.length t -> describe t = PyStr.slice_to 300 t +:+ "...".
Proof.
  intros H. unfold describe, PyStr.len.
  destruct (Z.gtb_spec (Z.of_nat (String.length t)) 300); [reflexivity | lia].
Qed.

Lemma describe_length (t : string) : String.length (describe t) <= 303.
Proof.
  destruct (Nat.le_gt_cases (String.length t) 300) as [H | H].
  - rewrite describe_short by exact H. lia.
  - rewrite describe_long by exact H.
    rewrite length_append, slice_to_length by lia. simpl. lia.
Qed.

(** C4. For every section with non-empty content, the description of
    its event is the joined content text unchanged when that text has
    at most 300 characters; otherwise it is the first 300 characters
    followed by "...", which makes exactly 303 characters ending in
    "...".  No description is longer than 303 characters. *)
Theorem C4_description_truncated :
  forall (sections : list Sec) (links : list Link) (year : Z),
    Forall2
      (fun section event =>
         let content_text := PyStr.join " " (s_content section) in
         let d := e_description event in
         s_content section <> []
         /\ (String.length content_text <= 300 -> d = content_text)
         /\ (300 < String.length content_text ->
             d = PyStr.slice_to 300 content_text +:+ "..."
             /\ String.length d = 303
             /\ exists first300, String.length first300 = 300
                                 /\ d = first300 +:+ "...")
         /\ String.length d <= 303)
      (filter (fun s => nonempty (s_content s)) sections)
      (build_events sections links year).
Proof.
  intros sections links year. rewrite build_events_eq.
  induction sections as [|s sections IH]; simpl; [constructor |].
  destruct (nonempty (s_content s)) eqn:Hne; [| exact IH].
  simpl. constructor; [| exact IH].
  rewrite build_event_eq. cbn [e_description].
  split; [destruct (s_content s); [discriminate | congruence] |].
  split; [apply describe_short |].
  split; [| apply describe_length].
  intros Hlong. rewrite (describe_long _ Hlong).
  assert (Hlen : String.length (PyStr.slice_to 300 (PyStr.join " " (s_content s))) = 300)
    by (apply slice_to_length; lia).
  split; [reflexivity |]. split.
  - rewrite length_append, Hlen. reflexivity.
  - eexists. split; [exact Hlen | reflexivity].
Qed.

Lemma link_in_section_iff (content_text title : string) (link : Link) :
  link_in_section content_text title link = true
  <-> Substring (PyStr.lower (l_text link)) (PyStr.lower content_text)
      \/ Substring (l_text link) title.
Proof.
  unfold link_in_section. now rewrite orb_true_iff, !contains_iff.
Qed.

(** C5. For every section and list of extracted links, the links of the
    section's event are exactly the extracted links whose text occurs,
    compared in lower case, in the joined content text, or occurs as it
    is in the section title, in extraction order; and one link can be
    attached to several events. *)
Theorem C5_links_matched_in_order :
  (forall (sections : list Sec) (links : list Link) (year : Z),
      Forall2
        (fun section event =>
           let content_text := PyStr.join " " (s_content section) in
           e_links event
           = filter (link_in_section content_text (s_title section)) links
           /\ Subseq (e_links event) links
           /\ forall link,
               In link (e_links event)
               <-> In link links
                   /\ (Substring (PyStr.lower (l_text link))
                                 (PyStr.lower content_text)
                       \/ Substring (l_text link) (s_title section)))
        (filter (fun s => nonempty (s_content s)) sections)
        (build_events sections links year))
  /\ Forall (fun event => In shared_link (e_links event))
            (build_events shared_sections [shared_link] 2025)
  /\ List.length (build_events shared_sections [shared_link] 2025) = 2.
Proof.
  split.
  - intros sections links year. rewrite build_events_eq.
    apply Forall2_map_r. intros s. rewrite build_event_eq. cbn [e_links].
    split; [reflexivity |]. split; [apply Subseq_filter |].
    intros link. rewrite filter_In, link_in_section_iff. reflexivity.
  - split.
    + vm_compute. repeat constructor.
    + reflexivity.
Qed.

(** C6. For every list of sections the event builder produces one event
    per section whose content is non-empty, in section order, and none
    for a section whose content is empty. *)
Theorem C6_one_event_per_nonempty_section :
  forall (sections : list Sec) (links : list Link) (year : Z),
    build_events sections links year
    = map (build_event links year)
          (filter (fun s => nonempty (s_content s)) sections)
    /\ List.length (build_events sections links year)
       = List.length (filter (fun s => nonempty (s_content s)) sections)
    /\ map e_title (build_events sections links year)
       = map s_title (filter (fun s => nonempty (s_content s)) sections)
    /\ build_events (filter (fun s => negb (nonempty (s_content s))) sections)
                    links year = []
    /\ forall (before after : list Sec) (s : Sec),
        build_events (before ++ s :: after) links year
        = build_events before links year
          ++ (if nonempty (s_content s) then [build_event links year s] else [])
          ++ build_events after links year.
Proof.
  intros sections links year.
  split; [apply build_events_eq |].
  split; [rewrite build_events_eq; apply length_map |].
  split.
  - rewrite build_events_eq, map_map. apply map_ext.
    intros s. now rewrite build_event_eq.
  - split.
    + rewrite build_events_eq.
      induction sections as [|s sections IH]; simpl; [reflexivity |].
      destruct (nonempty (s_content s)) eqn:E; simpl; [exact IH |].
      now rewrite E.
    + intros before after s. rewrite !build_events_eq, filter_app, map_app.
      simpl. destruct (nonempty (s_content s)); reflexivity.
Qed.

(* ================================================================== *)
(** * The date inferrer *)
(* ================================================================== *)

(** ** The pattern never backtracks *)

Lemma or_else_some {A : Type} (x y : option A) :
  x <> None -> match x with Some v => Some v | None => y end = x.
Proof. destruct x; [reflexivity | congruence]. Qed.

Lemma or_else_none {A : Type} (x : option A) :
  match x with Some v => Some v | None => None end = x.
Proof. now destruct x. Qed.

Lemma consumed_prefix (pre rest : string) :
  Re.consumed (pre +:+ rest) rest = pre.
Proof.
  unfold Re.consumed. rewrite length_append.
  replace (String.length pre + String.length rest - String.length rest)
    with (String.length pre) by lia.
  induction pre as [|c pre IH]; simpl.
  - destruct rest; reflexivity.
  - now rewrite IH.
Qed.

Lemma take_day_consumed (s : string) (d : string) :
  fst (take_day s) = Some d -> Re.consumed s (snd (take_day s)) = d.
Proof.
  destruct s as [|a s]; [discriminate |]. cbn [take_day].
  destruct (PyStr.isdigit a); [| discriminate].
  destruct s as [|b s]; cbn [fst snd].
  - intros H. injection H as <-. reflexivity.
  - destruct (PyStr.isdigit b); cbn [fst snd]; intros H; injection H as <-.
    + apply (consumed_prefix (String a (String b "")) s).
    + apply (consumed_prefix (String a "") (String b s)).
Qed.

Lemma take_day_none (s : string) :
  fst (take_day s) = None -> snd (take_day s) = s.
Proof.
  destruct s as [|a [|b t]]; cbn [take_day]; try reflexivity;
    destruct (PyStr.isdigit a); try reflexivity; try discriminate.
  destruct (PyStr.isdigit b); discriminate.
Qed.

Lemma take_year_consumed (s : string) (y : string) :
  take_year s = Some y -> Re.consumed s (Url.drop 4 s) = y.
Proof.
  destruct s as [|a [|b [|c [|d s]]]]; try discriminate.
  cbn [take_year Url.drop].
  destruct (PyStr.isdigit a && PyStr.isdigit b && PyStr.isdigit c && PyStr.isdigit d);
    [| discriminate].
  intros H. injection H as <-.
  apply (consumed_prefix (String a (String b (String c (String d "")))) s).
Qed.

Section Greedy.
Context {R : Type}.
Implicit Types (s : string) (g : Re.groups).

Lemma run_cat (r1 r2 : Re.regex) s g (k : string -> Re.groups -> option R) :
  Re.run true (Re.Cat r1 r2) s g k
  = Re.run true r1 s g (fun s' g' => Re.run true r2 s' g' k).
Proof. reflexivity. Qed.

Lemma run_lit (w : string) s g (k : string -> Re.groups -> option R) :
  Re.run true (Re.lit w) s g k
  = match ci_strip_prefix w s with Some s' => k s' g | None => None end.
Proof.
  revert s. induction w as [|c w IH]; intros s;
    cbn [Re.run Re.lit ci_strip_prefix].
  - reflexivity.
  - destruct s as [|d s]; [reflexivity |].
    destruct (Re.chr_match true c d); [apply IH | reflexivity].
Qed.

(** When what follows cannot fail, a repetition keeps all it took. *)
Lemma rep_blanks s (k : string -> option R) :
  (forall s', k s' <> None) ->
  Re.rep PyStr.isspace 0 None s k = k (PyStr.lstrip s).
Proof.
  intros Hk. induction s as [|c s IH];
    cbn [Re.rep PyStr.lstrip Nat.pred option_map andb].
  - reflexivity.
  - destruct (PyStr.isspace c); [| reflexivity].
    rewrite IH. apply or_else_some, Hk.
Qed.

Lemma rep_day s (k : string -> option R) :
  (forall s', k s' <> None) ->
  Re.rep PyStr.isdigit 1 (Some 2) s k
  = match fst (take_day s) with
    | Some _ => k (snd (take_day s))
    | None => None
    end.
Proof.
  intros Hk.
  destruct s as [|a [|b s]];
    cbn [Re.rep take_day Nat.pred option_map andb fst snd];
    try reflexivity.
  - destruct (PyStr.isdigit a); cbn [fst snd]; [apply or_else_none | reflexivity].
  - destruct (PyStr.isdigit a); cbn [fst snd]; [| reflexivity].
    destruct (PyStr.isdigit b); cbn [fst snd].
    + rewrite or_else_none.
      destruct s; cbn [Re.rep andb]; apply or_else_some, Hk.
    + apply or_else_none.
Qed.

Lemma rep_year s (k : string -> option R) :
  Re.rep PyStr.isdigit 4 (Some 4) s k
  = match take_year s with
    | Some _ => k (Url.drop 4 s)
    | None => None
    end.
Proof.
  destruct s as [|a [|b [|c [|d s]]]];
    cbn [Re.rep take_year Nat.pred option_map andb Url.drop];
    repeat match goal with
           | |- context [PyStr.isdigit ?x] =>
               destruct (PyStr.isdigit x); cbn [andb]
           end; try reflexivity.
  destruct s; cbn [Re.rep andb]; now destruct (k _).
Qed.

Lemma run_blanks s g (k : string -> Re.groups -> option R) :
  (forall s', k s' g <> None) ->
  Re.run true (Re.Rep PyStr.isspace 0 None) s g k = k (PyStr.lstrip s) g.
Proof. intros Hk. cbn [Re.run]. now rewrite rep_blanks. Qed.

Lemma run_opt_comma s g (k : string -> Re.groups -> option R) :
  (forall s', k s' g <> None) ->
  Re.run true (Re.Opt (Re.Chr ",")) s g k = k (skip_comma s) g.
Proof.
  intros Hk. destruct s as [|c s]; cbn [Re.run skip_comma]; [reflexivity |].
  destruct (Re.chr_match true "," c); [apply or_else_some, Hk | reflexivity].
Qed.

Lemma run_opt_day s g (k : string -> Re.groups -> option R) :
  (forall s' g', k s' g' <> None) ->
  Re.run true (Re.Opt (Re.Grp 2 (Re.Rep PyStr.isdigit 1 (Some 2)))) s g k
  = match fst (take_day s) with
    | Some d => k (snd (take_day s)) ((2, d) :: g)
    | None => k s g
    end.
Proof.
  intros Hk. cbn [Re.run]. rewrite rep_day by (intros; apply Hk).
  destruct (fst (take_day s)) as [d|] eqn:E; [| reflexivity].
  rewrite (take_day_consumed s d E). apply or_else_some, Hk.
Qed.

Lemma run_opt_year s g (k : string -> Re.groups -> option R) :
  (forall s' g', k s' g' <> None) ->
  Re.run true (Re.Opt (Re.Grp 3 (Re.Rep PyStr.isdigit 4 (Some 4)))) s g k
  = match take_year s with
    | Some y => k (Url.drop 4 s) ((3, y) :: g)
    | None => k s g
    end.
Proof.
  intros Hk. cbn [Re.run]. rewrite rep_year.
  destruct (take_year s) as [y|] eqn:E; [| reflexivity].
  rewrite (take_year_consumed s y E). apply or_else_some, Hk.
Qed.
End Greedy.

Lemma run_tail_year (s : string) (g : Re.groups) :
  Re.run true (Re.Opt (Re.Grp 3 (Re.Rep PyStr.isdigit 4 (Some 4)))) s g done
  = Some (group_of 3 (take_year s) ++ g).
Proof.
  rewrite run_opt_year by discriminate. now destruct (take_year s).
Qed.

Lemma run_tail_blanks_year (s : string) (g : Re.groups) :
  Re.run true
    (Re.Cat (Re.Rep PyStr.isspace 0 None)
       (Re.Opt (Re.Grp 3 (Re.Rep PyStr.isdigit 4 (Some 4)))))
    s g done
  = Some (group_of 3 (take_year (PyStr.lstrip s)) ++ g).
Proof.
  rewrite run_cat, run_blanks.
  - apply run_tail_year.
  - intros s'. now rewrite run_tail_year.
Qed.

Lemma run_tail_comma (s : string) (g : Re.groups) :
  Re.run true
    (Re.Cat (Re.Opt (Re.Chr ","))
       (Re.Cat (Re.Rep PyStr.isspace 0 None)
          (Re.Opt (Re.Grp 3 (Re.Rep PyStr.isdigit 4 (Some 4))))))
    s g done
  = Some (group_of 3 (take_year (PyStr.lstrip (skip_comma s))) ++ g).
Proof.
  rewrite run_cat, run_opt_comma.
  - apply run_tail_blanks_year.
  - intros s'. now rewrite run_tail_blanks_year.
Qed.

Lemma run_tail_day (s : string) (g : Re.groups) :
  Re.run true
    (Re.Cat (Re.Opt (Re.Grp 2 (Re.Rep PyStr.isdigit 1 (Some 2))))
    (Re.Cat (Re.Opt (Re.Chr ","))
       (Re.Cat (Re.Rep PyStr.isspace 0 None)
          (Re.Opt (Re.Grp 3 (Re.Rep PyStr.isdigit 4 (Some 4)))))))
    s g done
  = Some (group_of 3 (take_year (PyStr.lstrip (skip_comma (snd (take_day s)))))
          ++ group_of 2 (fst (take_day s)) ++ g).
Proof.
  rewrite run_cat, run_opt_day.
  - destruct (fst (take_day s)) as [d|] eqn:E.
    + now rewrite run_tail_comma.
    + now rewrite run_tail_comma, (take_day_none s E).
  - intros s' g'. now rewrite run_tail_comma.
Qed.

Lemma run_tail (s : string) (g : Re.groups) :
  Re.run true tail_pattern s g done
  = Some (group_of 3 (snd (scan_tail s)) ++ group_of 2 (fst (scan_tail s)) ++ g).
Proof.
  unfold tail_pattern, scan_tail. rewrite run_cat, run_blanks.
  - rewrite run_tail_day. now destruct (take_day (PyStr.lstrip s)).
  - intros s'. now rewrite run_tail_day.
Qed.

Lemma run_months (names : list string) (s : string) :
  forall m : string,
    Re.run true (Re.Grp 1 (Re.alts (Re.lit m) (map Re.lit names))) s []
           (fun s' g' => Re.run true tail_pattern s' g' done)
    = match month_at (m :: names) s with
      | Some (month, rest) =>
          Some (groups_of (month, fst (scan_tail rest), snd (scan_tail rest)))
      | None => None
      end.
Proof.
  cbn [Re.run]. induction names as [|n names IH]; intros m.
  - cbn [map Re.alts month_at]. rewrite run_lit.
    destruct (ci_strip_prefix m s) as [rest|]; [apply run_tail | reflexivity].
  - cbn [map Re.alts month_at Re.run]. rewrite run_lit.
    destruct (ci_strip_prefix m s) as [rest|].
    + now rewrite run_tail.
    + apply IH.
Qed.

(** At one position, the backtracking matcher finds what the scanner
    finds. *)
Lemma match_here_scan (s : string) :
  Re.match_here month_pattern true s = option_map groups_of (scan_date s).
Proof.
  unfold Re.match_here, month_pattern.
  rewrite run_cat.
  change (fun (s' : string) (g' : Re.groups) =>
            Re.run true ?r s' g' (fun (_ : string) (g0 : Re.groups) => Some g0))
    with (fun (s' : string) (g' : Re.groups) => Re.run true tail_pattern s' g' done).
  change (tl month_names) with
    ["February"; "March"; "April"; "May"; "June"; "July";
     "August"; "September"; "October"; "November"; "December"].
  rewrite run_months. unfold scan_date.
  change month_names with
    ["January"; "February"; "March"; "April"; "May"; "June"; "July";
     "August"; "September"; "October"; "November"; "December"].
  destruct (month_at _ s) as [[month rest]|]; [| reflexivity].
  now destruct (scan_tail rest).
Qed.

(** [re.search] with [month_pattern] finds the leftmost date of the
    scanner. *)
Lemma search_find_date (s : string) :
  Re.search month_pattern true s = option_map groups_of (find_date s).
Proof.
  induction s as [|c s IH]; cbn [Re.search find_date];
    rewrite match_here_scan.
  - now destruct (scan_date "").
  - destruct (scan_date (String c s)); [reflexivity | exact IH].
Qed.

Lemma take_day_truthy (s d : string) :
  fst (take_day s) = Some d -> PyStr.truthy d = true.
Proof.
  destruct s as [|a [|b s]]; cbn [take_day]; try discriminate;
    destruct (PyStr.isdigit a); try discriminate.
  - intros H. now injection H as <-.
  - destruct (PyStr.isdigit b); intros H; now injection H as <-.
Qed.

Lemma take_year_truthy (s y : string) :
  take_year s = Some y -> PyStr.truthy y = true.
Proof.
  destruct s as [|a [|b [|c [|d s]]]]; try discriminate. cbn [take_year].
  destruct (PyStr.isdigit a && PyStr.isdigit b && PyStr.isdigit c && PyStr.isdigit d);
    [| discriminate].
  intros H. now injection H as <-.
Qed.

Lemma find_date_truthy (s month : string) (day yr : option string) :
  find_date s = Some (month, day, yr) ->
  (forall d, day = Some d -> PyStr.truthy d = true)
  /\ (forall y, yr = Some y -> PyStr.truthy y = true).
Proof.
  induction s as [|c s IH]; cbn [find_date]; unfold scan_date, scan_tail.
  - destruct (month_at month_names "") as [[m rest]|]; [| discriminate].
    destruct (take_day (PyStr.lstrip rest)) as [dy r] eqn:E.
    intros H. injection H as <- <- <-. split.
    + intros d ->. apply (take_day_truthy (PyStr.lstrip rest)). now rewrite E.
    + intros y. apply take_year_truthy.
  - destruct (month_at month_names (String c s)) as [[m rest]|]; [| exact IH].
    destruct (take_day (PyStr.lstrip rest)) as [dy r] eqn:E.
    intros H. injection H as <- <- <-. split.
    + intros d ->. apply (take_day_truthy (PyStr.lstrip rest)). now rewrite E.
    + intros y. apply take_year_truthy.
Qed.

(** For every text, the date inferrer prints the leftmost date of the
    scanner: month, day and year when a day was taken, month and year
    otherwise, with the fallback year when no year was taken; and the
    fallback year alone when the text holds no month name. *)
Theorem extract_dates_scan (text : string) (year : Z) :
  extract_dates text year = Some (format_date year (find_date text)).
Proof.
  unfold extract_dates. rewrite search_find_date.
  destruct (find_date text) as [[[month day] yr]|] eqn:E; [| reflexivity].
  destruct (find_date_truthy text month day yr E) as [Hd Hy].
  cbn [option_map groups_of format_date].
  destruct yr as [y|], day as [d|]; cbn;
    rewrite ?(Hd _ eq_refl), ?(Hy _ eq_refl); reflexivity.
Qed.

(** C10. For every text and fallback year the date inferrer returns a
    string: the absent result that its declared type allows is never
    produced.  The string is the formatted leftmost date of the text,
    or the fallback year when the text names no month. *)
Theorem C10_extract_dates_total :
  forall (text : string) (year : Z),
    extract_dates text year <> None
    /\ exists date,
        extract_dates text year = Some date
        /\ date = format_date year (find_date text)
        /\ (find_date text = None -> date = PyStr.str_of_int year).
Proof.
  intros text year. rewrite extract_dates_scan.
  split; [discriminate |]. eexists. split; [reflexivity |].
  split; [reflexivity |]. now intros ->.
Qed.

Lemma digit_not_space (c : ascii) :
  PyStr.isdigit c = true -> PyStr.isspace c = false.
Proof.
  unfold PyStr.isdigit, PyStr.isspace, PyStr.in_range. intros H.
  apply andb_true_iff in H as [H1 H2]. apply N.leb_le in H1, H2.
  repeat rewrite orb_false_iff. repeat split.
  - apply andb_false_iff. right. apply N.leb_gt. lia.
  - apply andb_false_iff. right. apply N.leb_gt. lia.
  - apply N.eqb_neq. lia.
  - apply N.eqb_neq. lia.
Qed.

Lemma digit_lower (c : ascii) :
  PyStr.isdigit c = true -> PyStr.lower_char c = c.
Proof.
  unfold PyStr.isdigit, PyStr.lower_char, PyStr.in_range. intros H.
  apply andb_true_iff in H as [H1 H2]. apply N.leb_le in H1, H2.
  replace (N.leb 65 (PyStr.code c)) with false by (symmetry; apply N.leb_gt; lia).
  replace (N.leb 192 (PyStr.code c)) with false by (symmetry; apply N.leb_gt; lia).
  reflexivity.
Qed.

Lemma digit_not_comma (c : ascii) :
  PyStr.isdigit c = true -> Re.chr_match true "," c = false.
Proof.
  intros H. unfold Re.chr_match. rewrite (digit_lower c H).
  apply Ascii.eqb_neq. intros <-. discriminate H.
Qed.

(** A month name at the start of a text is found there, as spelled. *)
Lemma month_at_self (m rest : string) :
  In m month_names -> month_at month_names (m +:+ rest) = Some (m, rest).
Proof.
  intros Hm. rewrite <- (consumed_prefix m rest) at 2.
  unfold month_names in *. cbn [In] in Hm.
  repeat (destruct Hm as [<- | Hm]; [reflexivity |]). contradiction.
Qed.

(** After a month name and a blank, four digits are read as a two-digit
    day with no year: the day group takes the first two, and the two
    that remain are too few for the year group. *)
Lemma scan_tail_four_digits (d1 d2 d3 d4 : ascii) :
  PyStr.isdigit d1 = true -> PyStr.isdigit d2 = true ->
  PyStr.isdigit d3 = true ->
  scan_tail (" " +:+ String d1 (String d2 (String d3 (String d4 ""))))
  = (Some (String d1 (String d2 "")), None).
Proof.
  intros H1 H2 H3. unfold scan_tail.
  change (PyStr.lstrip (" " +:+ ?x)) with (PyStr.lstrip x).
  cbn [PyStr.lstrip]. rewrite (digit_not_space d1 H1).
  cbn [take_day]. rewrite H1, H2.
  cbn [skip_comma]. rewrite (digit_not_comma d3 H3).
  cbn [PyStr.lstrip]. rewrite (digit_not_space d3 H3). reflexivity.
Qed.

(** Every text made of a month name, a blank and a four-digit year is
    dated to the day given by the first two digits of that year, in the
    fallback year. *)
Lemma extract_dates_month_year (m : string) (d1 d2 d3 d4 : ascii) (year : Z) :
  In m month_names ->
  PyStr.isdigit d1 = true -> PyStr.isdigit d2 = true ->
  PyStr.isdigit d3 = true -> PyStr.isdigit d4 = true ->
  extract_dates (m +:+ " " +:+ String d1 (String d2 (String d3 (String d4 ""))))
                year
  = Some (m +:+ " " +:+ String d1 (String d2 "") +:+ ", "
          +:+ PyStr.str_of_int year).
Proof.
  intros Hm H1 H2 H3 H4. rewrite extract_dates_scan.
  assert (E : find_date (m +:+ " " +:+ String d1 (String d2 (String d3 (String d4 ""))))
              = Some (m, Some (String d1 (String d2 "")), None)).
  { assert (Es : scan_date (m +:+ " " +:+ String d1 (String d2 (String d3 (String d4 ""))))
                 = Some (m, Some (String d1 (String d2 "")), None)).
    { unfold scan_date. rewrite (month_at_self m _ Hm).
      now rewrite (scan_tail_four_digits d1 d2 d3 d4 H1 H2 H3). }
    destruct (m +:+ " " +:+ String d1 (String d2 (String d3 (String d4 ""))));
      cbn [find_date]; now rewrite Es. }
  rewrite E. reflexivity.
Qed.

(** C2. On the text "Published in March 2024." with fallback year 2025
    the date inferrer returns "March 20, 2025": the day group takes the
    first two digits of the year, and no year is captured.  The examples
    of the specification evaluate as it says. *)
Theorem C2_month_year_read_as_day :
  extract_dates "Published in March 2024." 2025 = Some "March 20, 2025"
  /\ extract_dates "March 2024" 2025 = Some "March 20, 2025"
  /\ extract_dates "Released on March 15, 2025 to wide acclaim" 2025
     = Some "March 15, 2025"
  /\ extract_dates "no date mentioned here" 2026 = Some "2026"
  /\ extract_dates "Published in March, 2024." 2025 = Some "March 2024"
  /\ extract_dates "released in may" 2025 = Some "may 2025".
Proof. repeat split; vm_compute; reflexivity. Qed.

(* ================================================================== *)
(** * The section extractor *)
(* ================================================================== *)

Lemma collect_content_eq (siblings : list PageElement) (content : list string) :
  collect_content siblings content
  = content ++ paragraphs (before_heading siblings).
Proof.
  revert content. unfold paragraphs.
  induction siblings as [|e rest IH]; intros content;
    cbn [collect_content before_heading].
  - cbn. now rewrite app_nil_r.
  - fold (is_heading e). destruct (is_heading e).
    + cbn. now rewrite app_nil_r.
    + cbn [filter map]. destruct (has_name "p" e); rewrite IH.
      * cbn [map]. now rewrite <- app_assoc.
      * reflexivity.
Qed.

Lemma extract_headings_and_sections_eq (soup : PageElement) :
  extract_headings_and_sections soup
  = map section_of_heading (find_all is_heading (article_of soup)).
Proof.
  unfold extract_headings_and_sections.
  rewrite (fold_left_append (fun _ => true) section_of_heading).
  now rewrite filter_all.
Qed.

Lemma before_heading_split (siblings : list PageElement) :
  exists rest,
    siblings = before_heading siblings ++ rest
    /\ Forall (fun e => is_heading e = false) (before_heading siblings)
    /\ (rest = [] \/ exists h tl, rest = h :: tl /\ is_heading h = true).
Proof.
  induction siblings as [|e l IH]; simpl.
  - exists []. repeat split; [constructor | now left].
  - destruct (is_heading e) eqn:E.
    + exists (e :: l). repeat split; [constructor |]. right. now exists e, l.
    + destruct IH as [rest [H1 [H2 H3]]]. exists rest. repeat split.
      * simpl. now rewrite <- H1.
      * now constructor.
      * exact H3.
Qed.

Lemma before_heading_stops (before after : list PageElement) (h : PageElement) :
  is_heading h = true ->
  before_heading (before ++ h :: after) = before_heading before.
Proof.
  intros Hh. induction before as [|e l IH]; simpl.
  - now rewrite Hh.
  - destruct (is_heading e); [reflexivity | now rewrite IH].
Qed.

Lemma heading_level (e : PageElement) :
  is_heading e = true -> level_of e = 2%Z \/ level_of e = 3%Z.
Proof.
  unfold is_heading, name_in. simpl. rewrite orb_false_r, orb_true_iff.
  destruct e as [n a c|s]; simpl; [| intros [H|H]; discriminate].
  rewrite !String.eqb_eq. intros [-> | ->]; [left | right]; reflexivity.
Qed.

(** C3 (amended). For every document the section extractor returns one
    section per heading of rank 2 or 3, in document order, whose
    content is the trimmed text of the paragraphs among the following
    sibling tags up to the next sibling heading of rank 2 or 3, whatever
    the ranks of the two headings: the content of a rank-2 section ends
    at an intervening rank-3 heading. *)
Theorem C3_sections_until_next_heading :
  forall soup : PageElement,
    extract_headings_and_sections soup
    = map (fun h =>
             {| s_title := get_text_strip (node h);
                s_level := level_of (node h);
                s_content := paragraphs (before_heading (find_next_siblings h)) |})
          (find_all is_heading (article_of soup))
    /\ Forall (fun s => s_level s = 2%Z \/ s_level s = 3%Z)
              (extract_headings_and_sections soup)
    /\ (forall siblings : list PageElement,
           exists rest,
             siblings = before_heading siblings ++ rest
             /\ Forall (fun e => is_heading e = false) (before_heading siblings)
             /\ (rest = [] \/ exists h tl, rest = h :: tl /\ is_heading h = true))
    /\ (forall before after attrs contents,
           before_heading (before ++ Tag "h3" attrs contents :: after)
           = before_heading before)
    /\ (forall before after attrs contents,
           before_heading (before ++ Tag "h2" attrs contents :: after)
           = before_heading before).
Proof.
  intros soup. rewrite extract_headings_and_sections_eq.
  split.
  - apply map_ext. intros h. unfold section_of_heading.
    now rewrite collect_content_eq.
  - split.
    + apply Forall_map, Forall_forall. intros h Hin.
      unfold find_all in Hin. apply filter_In in Hin as [_ Hin].
      apply andb_true_iff in Hin as [_ Hin].
      simpl. now apply heading_level.
    + split; [apply before_heading_split |].
      split; intros; now apply before_heading_stops.
Qed.

(** C3, as first stated, fails on [nested_headings]: the section of
    the rank-2 heading "Intro" holds the first paragraph only, while
    under "until the next heading of equal-or-higher priority" it would
    also hold the paragraph after the rank-3 heading. *)
Lemma C3_counterexample_rank3_ends_rank2 :
  map s_content (extract_headings_and_sections nested_headings)
  = [["first"]; ["second"]; ["third"]]
  /\ map s_content (sections_by_priority nested_headings)
     = [["first"; "second"]; ["second"]; ["third"]]
  /\ ~ (forall soup : PageElement,
           extract_headings_and_sections soup = sections_by_priority soup).
Proof.
  split; [reflexivity |]. split; [reflexivity |].
  intros H. specialize (H nested_headings). vm_compute in H. discriminate H.
Qed.

(* ================================================================== *)
(** * The link extractor *)
(* ================================================================== *)









Lemma http_prefix_absolute (href : string) :
  (PyStr.startswith href "http://" || PyStr.startswith href "https://") = true ->
  Url.is_absolute href = true.
Proof.
  rewrite orb_true_iff, !startswith_iff.
  intros [[post ->] | [post ->]]; reflexivity.
Qed.

(** Whatever [urljoin] does, the extractor keeps, in document order,
    the anchors whose text and resolved target are both non-empty. *)
Lemma extract_links_any (urljoin : string -> string -> string)
      (soup : PageElement) (base_url : string) :
  extract_links urljoin soup base_url
  = map (fun a => {| l_text := get_text_strip (node a);
                     l_url := resolve_href urljoin base_url (href_of (node a)) |})
        (filter (fun a => PyStr.truthy (get_text_strip (node a))
                          && PyStr.truthy (resolve_href urljoin base_url
                                                        (href_of (node a))))
                (find_all (fun a => has_name "a" a && has_href a)
                          (article_of soup))).
Proof.
  unfold extract_links, extract_links_step.
  exact (fold_left_append
           (fun a => PyStr.truthy (get_text_strip (node a))
                     && PyStr.truthy (resolve_href urljoin base_url
                                                   (href_of (node a))))
           (fun a => {| l_text := get_text_strip (node a);
                        l_url := resolve_href urljoin base_url
                                              (href_of (node a)) |})
           _ []).
Qed.

Section LinkExtractor.
Variable urljoin : string -> string -> string.
Variable base_url : string.
Hypothesis urljoin_absolute :
  forall href, Url.is_absolute (urljoin base_url href) = true.


End LinkExtractor.



(* ================================================================== *)
(** * The link verifier *)
(* ================================================================== *)

Lemma add_out_nil (w : World) : add_out [] w = w.
Proof. unfold add_out. rewrite app_nil_r. now destruct w. Qed.

Lemma add_out_add_out (l1 l2 : list string) (w : World) :
  add_out l2 (add_out l1 w) = add_out (l1 ++ l2) w.
Proof. unfold add_out. simpl. now rewrite app_assoc. Qed.

Lemma print_add_out (line : string) (w : World) :
  print line w = (tt, add_out [line] w).
Proof. reflexivity. Qed.

Lemma last_cons {A : Type} (l : list A) :
  forall x d : A, last (x :: l) d = last l x.
Proof.
  induction l as [|y l IH]; intros x d; [reflexivity |].
  change (last (x :: y :: l) d) with (last (y :: l) d).
  now rewrite (IH y d), (IH y x).
Qed.

Section Verifier.
Variable env : Env.

(** The verification loop probes the URLs it is given in turn, and does
    nothing but print. *)
Lemma verify_loop (n : nat) (urls : list string) :
  forall (k : nat) (url : string) (acc : list LinkVerification) (w : World),
  exists out,
    for_each (combine (seq k (List.length urls)) urls) (verify_step env n)
             (url, acc) w
    = ((last urls url, acc ++ map (probe env) urls), add_out out w).
Proof.
  induction urls as [|u urls IH]; intros k url acc w.
  - exists []. simpl. unfold ret. now rewrite app_nil_r, add_out_nil.
  - cbn [List.length seq combine for_each]. unfold bind at 1.
    unfold verify_step at 1. unfold bind at 1. rewrite print_add_out.
    unfold ret at 1. cbn [snd].
    destruct (IH (S k) u (acc ++ [probe env u]) (add_out
      ["  Checking [" +:+ str_of_nat (k + 1) +:+ "/"
       +:+ str_of_nat (Nat.min n 50) +:+ "]: "
       +:+ PyStr.slice_to 60 u +:+ "..."] w)) as [out Hout].
    eexists. unfold probe in *.
    rewrite Hout, add_out_add_out, <- app_assoc, last_cons. reflexivity.
Qed.

Lemma verify_all_eq (verify_links : bool) (url : string) (links : list Link)
      (w : World) :
  exists url' out,
    verify_all env verify_links url links w
    = ((url', if verify_links
              then map (probe env) (firstn 50 (list_of_set env (map l_url links)))
              else []),
       add_out out w).
Proof.
  unfold verify_all. destruct verify_links.
  - unfold bind. rewrite print_add_out. unfold enumerate.
    destruct (verify_loop (List.length (list_of_set env (map l_url links)))
                          (firstn 50 (list_of_set env (map l_url links)))
                          0 url []
                          (add_out ["Verifying " +:+ str_of_nat (List.length links)
                                    +:+ " links..."] w))
      as [out Hout].
    rewrite Hout, add_out_add_out. eauto.
  - exists url, []. unfold ret. now rewrite add_out_nil.
Qed.

(** A year whose fetch fails yields nothing and only prints. *)
Lemma scrape_year_fails (year : Z) (verify_links : bool) (w : World) :
  fetch_fails env year = true ->
  scrape_year env year verify_links w = (None, add_out (fetch_log env year) w).
Proof.
  unfold fetch_fails, scrape_year, fetch_log, fetch_page.
  destruct (requests_get env (get_url_for_year year)) as [html|e]; intros H.
  - unfold bind, ret. rewrite print_add_out.
    destruct html; [reflexivity | discriminate].
  - unfold bind, ret. rewrite !print_add_out, add_out_add_out. reflexivity.
Qed.

(** A year whose fetch succeeds yields a result for that year, with the
    probes of the first fifty distinct URLs when verification is on;
    no file is written. *)
Lemma scrape_year_succeeds (year : Z) (verify_links : bool) (w : World) :
  fetch_fails env year = false ->
  exists data w',
    scrape_year env year verify_links w = (Some data, w')
    /\ y_year data = year
    /\ y_link_verification data
       = (if verify_links
          then Some (map (probe env) (firstn 50 (list_of_set env
                                            (map l_url (y_all_links data)))))
          else None)
    /\ files w' = files w
    /\ dirs w' = dirs w
    /\ exists out, stdout w' = stdout w ++ out.
Proof.
  unfold fetch_fails, scrape_year, fetch_page.
  destruct (requests_get env (get_url_for_year year)) as [html|e];
    [| discriminate].
  intros H. apply negb_false_iff in H.
  unfold bind at 1. rewrite print_add_out.
  unfold bind at 1. unfold ret at 1. rewrite H. cbn [negb].
  match goal with
  | |- context [verify_all env verify_links ?u ?l] =>
      set (links := l); set (url := u)
  end.
  unfold bind at 1.
  destruct (verify_all_eq verify_links url links
              (add_out ["Fetching " +:+ PyStr.str_of_int year +:+ " from "
                        +:+ url +:+ "..."] w)) as [url' [out Hv]].
  rewrite Hv, add_out_add_out. unfold bind, tick, ret. cbn.
  eexists. eexists. split; [reflexivity |]. cbn.
  split; [reflexivity |]. split.
  - destruct verify_links; reflexivity.
  - repeat split. eauto.
Qed.
End Verifier.

Lemma firstn_incl {A : Type} (n : nat) (l : list A) (x : A) :
  In x (firstn n l) -> In x l.
Proof.
  revert n. induction l as [|y l IH]; intros n H.
  - now rewrite firstn_nil in H.
  - destruct n; simpl in H; [contradiction |].
    destruct H as [-> | H]; [now left | right; eauto].
Qed.

Lemma firstn_NoDup {A : Type} (n : nat) (l : list A) :
  NoDup l -> NoDup (firstn n l).
Proof.
  intros H. revert n. induction H as [|x l Hx Hl IH]; intros n.
  - rewrite firstn_nil. constructor.
  - destruct n; simpl; constructor.
    + intros Hin. apply Hx. revert Hin. apply firstn_incl.
    + apply IH.
Qed.

Lemma verify_link_url (head : string -> (Z * string) + string) (url : string) :
  v_url (verify_link head url) = url.
Proof. unfold verify_link. destruct (head url) as [[st fu]|e]; reflexivity. Qed.

(** C8. When verification is requested the result of a year holds one
    record per probed URL: the probed URLs are the first fifty of the
    distinct URLs of the extracted links, so at most fifty and without
    repetition; a record of an answered probe holds the status code and
    is valid exactly when that code is below 400; a record of a probe
    that failed in transport holds no status, is not valid and holds the
    error text.  When verification is not requested there are no
    records. *)
Theorem C8_verification_capped_and_classified :
  forall (env : Env) (year : Z) (verify_links : bool) (w : World)
         (data : YearResult),
    (forall xs, NoDup (list_of_set env xs)) ->
    (forall xs x, In x (list_of_set env xs) <-> In x xs) ->
    fst (scrape_year env year verify_links w) = Some data ->
    match y_link_verification data with
    | None => verify_links = false
    | Some records =>
        verify_links = true
        /\ map v_url records
           = firstn 50 (list_of_set env (map l_url (y_all_links data)))
        /\ List.length records <= 50
        /\ NoDup (map v_url records)
        /\ incl (map v_url records) (map l_url (y_all_links data))
        /\ Forall
             (fun v =>
                match requests_head env (v_url v) with
                | inl (status, _) =>
                    v_status v = Some status
                    /\ (v_valid v = true <-> (status < 400)%Z)
                    /\ v_error v = None
                | inr e =>
                    v_status v = None
                    /\ v_valid v = false
                    /\ v_error v = Some e
                end)
             records
    end.
Proof.
  intros env year verify_links w data Hnodup Helems Hdata.
  destruct (fetch_fails env year) eqn:Hf.
  - rewrite (scrape_year_fails env year verify_links w Hf) in Hdata.
    discriminate.
  - destruct (scrape_year_succeeds env year verify_links w Hf)
      as [data' [w' [Hrun [_ [Hlv _]]]]].
    rewrite Hrun in Hdata. simpl in Hdata. injection Hdata as ->.
    rewrite Hlv. destruct verify_links; [| reflexivity].
    set (urls := firstn 50 (list_of_set env (map l_url (y_all_links data)))).
    assert (Hurls : map v_url (map (probe env) urls) = urls).
    { rewrite map_map. rewrite <- (map_id urls) at 2. apply map_ext.
      intros u. apply verify_link_url. }
    split; [reflexivity |]. split; [exact Hurls |].
    split; [rewrite length_map; apply firstn_le_length |].
    split; [rewrite Hurls; apply firstn_NoDup, Hnodup |].
    split.
    + rewrite Hurls. intros u Hu. apply (Helems (map l_url (y_all_links data))).
      revert Hu. apply firstn_incl.
    + apply Forall_map, Forall_forall. intros u _.
      unfold probe. rewrite verify_link_url. unfold verify_link.
      destruct (requests_head env u) as [[status final]|e]; cbn.
      * split; [reflexivity |]. split; [apply Z.ltb_lt | reflexivity].
      * repeat split.
Qed.

(** C8 on [crowded_page] with verification on: 61 links with 60
    distinct URLs, of which 50 are probed. *)
Lemma C8_witness_crowded_page :
  (forall xs, NoDup (list_of_set sample_env xs))
  /\ (forall xs x, In x (list_of_set sample_env xs) <-> In x xs)
  /\ match fst (scrape_year sample_env 2025 true empty_world) with
     | None => False
     | Some data =>
         match y_link_verification data with
         | None => False
         | Some records =>
             List.length records <= 50
             /\ NoDup (map v_url records)
             /\ incl (map v_url records) (map l_url (y_all_links data))
         end
     end
  /\ option_map
       (fun data =>
          (List.length (y_all_links data),
           option_map (fun records =>
                         (List.length records,
                          map (fun v => (v_status v, v_valid v, v_error v))
                              (firstn 4 (skipn 3 records))))
                      (y_link_verification data)))
       (fst (scrape_year sample_env 2025 true empty_world))
     = Some (61, Some (50, [ (None, false, Some "ConnectTimeout");
                             (Some 200%Z, true, None);
                             (Some 200%Z, true, None);
                             (Some 200%Z, true, None) ])).
Proof.
  assert (Hn : forall xs, NoDup (list_of_set sample_env xs))
    by (intros xs; apply NoDup_nodup).
  assert (He : forall xs x, In x (list_of_set sample_env xs) <-> In x xs)
    by (intros xs x; apply nodup_In).
  split; [exact Hn |]. split; [exact He |]. split.
  - destruct (fst (scrape_year sample_env 2025 true empty_world))
      as [data|] eqn:E; [| vm_compute in E; discriminate E].
    pose proof (C8_verification_capped_and_classified
                  sample_env 2025 true empty_world data Hn He E) as H.
    destruct (y_link_verification data) as [records|]; [| discriminate H].
    destruct H as [_ [_ [Hlen [Hnd [Hincl _]]]]]. auto.
  - vm_compute. reflexivity.
Defined.

(* ================================================================== *)
(** * The orchestrator *)
(* ================================================================== *)


Section Orchestration.
Variable env : Env.
Variable args : Args.




End Orchestration.




(* ================================================================== *)
(** * Worked examples *)
(* ================================================================== *)

Example string_operations :
  PyStr.lower "GPT-5 Launched" = "gpt-5 launched"
  /\ PyStr.strip "  a b  " = "a b"
  /\ PyStr.str_of_int 2026 = "2026"
  /\ PyStr.str_of_int (-7) = "-7"
  /\ PyStr.tokens " entry-content  wide " = ["entry-content"; "wide"]
  /\ PyStr.contains "" "abc" = true
  /\ PyStr.join " " ["a"; "b"; "c"] = "a b c".
Proof. repeat split. Qed.

Example url_for_years :
  get_url_for_year 2024 = "https://simonwillison.net/2024/Dec/31/llms-in-2024/"
  /\ get_url_for_year 2026
     = "https://simonwillison.net/2026/Dec/31/the-year-in-llms/".
Proof. split; reflexivity. Qed.

Example categorizer_examples :
  In "models" (categorize_content "GPT-5 launched")
  /\ categorize_content "the weather was nice" = ["concepts"]
  /\ categorize_content "OpenAI cut the API price after the benchmark paper"
     = ["tools"; "pricing"; "companies"; "research"].
Proof. split; [left; reflexivity | split; reflexivity]. Qed.

Example section_extractor_example :
  map (fun s => (s_title s, s_level s, List.length (s_content s)))
      (extract_headings_and_sections two_sections_page)
  = [("Intro", 2%Z, 2); ("Models", 2%Z, 1)].
Proof. reflexivity. Qed.

Example description_examples :
  String.length (describe (replicate 400 "a")) = 303
  /\ describe (replicate 400 "a") = replicate 300 "a" +:+ "..."
  /\ describe (replicate 50 "b") = replicate 50 "b"
  /\ describe (replicate 300 "c") = replicate 300 "c"
  /\ String.length (describe (replicate 301 "d")) = 303.
Proof. repeat split; vm_compute; reflexivity. Qed.

Example end_to_end_example :
  build_events (extract_headings_and_sections big_models_page)
               (extract_links Url.join big_models_page example_url) 2025
  = [ {| e_title := "Big Models";
         e_date := Some "2025";
         e_categories := ["models"; "pricing"];
         e_description :=
           "Claude and GPT models improved significantly, costing $20/month";
         e_links := [] |} ].
Proof. vm_compute. reflexivity. Qed.

Example rfc3986_examples :
  map (fun ex => Url.join rfc_base (fst ex)) rfc_examples
  = map snd rfc_examples.
Proof. vm_compute. reflexivity. Qed.

(** With verification on, the loop variable of the verification loop
    replaces the page URL in the result. *)
Example source_url_after_verification :
  option_map y_source_url (fst (scrape_year sample_env 2025 true empty_world))
  = Some "https://simonwillison.net/l49"
  /\ option_map y_source_url (fst (scrape_year sample_env 2025 false empty_world))
     = Some "https://simonwillison.net/2025/Dec/31/the-year-in-llms/".
Proof. split; vm_compute; reflexivity. Qed.

(** A run over the three known years, all fetched: one year file each, then
    the combined file. *)
Example main_writes_files :
  let run := main sample_env
                  {| a_year := None; a_all := true;
                     a_verify_links := false; a_output := "data" |}
                  empty_world in
  fst run = Returned
  /\ map fst (files (snd run))
     = [ "data/year_in_llms_2023.json"; "data/year_in_llms_2024.json";
         "data/year_in_llms_2025.json"; "data/year_in_llms_all.json" ]
  /\ dirs (snd run) = ["data"]
  /\ last (stdout (snd run)) "" = "2025: 0 events, 61 links".
Proof. vm_compute. repeat split. Qed.

(* ================================================================== *)
(** * Years, URLs and file names *)
(* ================================================================== *)

Lemma to_int_proper (n : Z) :
  Z.to_int n <> Decimal.Pos Decimal.Nil /\ Z.to_int n <> Decimal.Neg Decimal.Nil.
Proof.
  destruct n as [|p|p]; simpl; split; try discriminate;
    intros H; injection H as H; now apply DecimalPos.Unsigned.to_uint_nonnil in H.
Qed.

Lemma str_of_int_inj (n m : Z) :
  PyStr.str_of_int n = PyStr.str_of_int m -> n = m.
Proof.
  unfold PyStr.str_of_int. intros H.
  apply DecimalZ.to_int_inj.
  destruct (to_int_proper n) as [Hn1 Hn2], (to_int_proper m) as [Hm1 Hm2].
  pose proof (NilZero.isi _ Hn1 Hn2) as En.
  pose proof (NilZero.isi _ Hm1 Hm2) as Em.
  rewrite H in En. rewrite En in Em. now injection Em.
Qed.

Lemma string_of_uint_chars (d : Decimal.uint) :
  all_chars is_year_char (NilEmpty.string_of_uint d) = true.
Proof. induction d; simpl; auto. Qed.

Lemma str_of_int_chars (n : Z) :
  all_chars is_year_char (PyStr.str_of_int n) = true.
Proof.
  unfold PyStr.str_of_int, NilZero.string_of_int, NilZero.string_of_uint.
  destruct (Z.to_int n) as [d|d]; destruct d; simpl;
    try reflexivity; apply string_of_uint_chars.
Qed.

Lemma str_of_int_head (n : Z) :
  exists c r, PyStr.str_of_int n = String c r /\ is_year_char c = true.
Proof.
  pose proof (str_of_int_chars n) as H.
  destruct (PyStr.str_of_int n) as [|c r] eqn:E.
  - exfalso. unfold PyStr.str_of_int, NilZero.string_of_int, NilZero.string_of_uint in E.
    destruct (Z.to_int n) as [d|d]; [| discriminate].
    destruct d; simpl in E; discriminate.
  - exists c, r. simpl in H. apply andb_true_iff in H as [H _]. now split.
Qed.

Lemma append_cancel_l (a x y : string) : a +:+ x = a +:+ y -> x = y.
Proof. induction a as [|c a IH]; simpl; intros H; [exact H | injection H as H; auto]. Qed.

(** Two texts cut at the first character outside a class agree part by part. *)
Lemma append_stop_inj (p : ascii -> bool) (c : ascii) :
  p c = false ->
  forall a b r r' : string,
    all_chars p a = true -> all_chars p b = true ->
    a +:+ String c r = b +:+ String c r' -> a = b /\ r = r'.
Proof.
  intros Hc. induction a as [|x a IH]; intros b r r' Ha Hb H.
  - destruct b as [|y b]; simpl in *.
    + injection H as ->. now split.
    + injection H as <- _. apply andb_true_iff in Hb as [Hy _]. congruence.
  - destruct b as [|y b]; simpl in *.
    + injection H as -> _. apply andb_true_iff in Ha as [Hx _]. congruence.
    + injection H as -> H. apply andb_true_iff in Ha as [_ Ha].
      apply andb_true_iff in Hb as [_ Hb].
      destruct (IH b r r' Ha Hb H) as [-> ->]. now split.
Qed.

Lemma guess_inj (n m : Z) (r r' : string) :
  PyStr.str_of_int n +:+ String "/" r = PyStr.str_of_int m +:+ String "/" r' ->
  n = m /\ r = r'.
Proof.
  intros H.
  destruct (append_stop_inj is_year_char "/" eq_refl _ _ _ _
              (str_of_int_chars n) (str_of_int_chars m) H) as [E ->].
  split; [now apply str_of_int_inj | reflexivity].
Qed.

Lemma get_url_unknown (year : Z) :
  dict_get year URL_PATTERNS = None ->
  get_url_for_year year
  = "https://simonwillison.net/" +:+ PyStr.str_of_int year
    +:+ "/Dec/31/the-year-in-llms/".
Proof. unfold get_url_for_year. now intros ->. Qed.

Lemma get_url_cases (year : Z) :
  (year = 2023%Z /\ get_url_for_year year = "https://simonwillison.net/2023/Dec/31/ai-in-2023/")
  \/ (year = 2024%Z /\ get_url_for_year year = "https://simonwillison.net/2024/Dec/31/llms-in-2024/")
  \/ get_url_for_year year
     = "https://simonwillison.net/" +:+ PyStr.str_of_int year
       +:+ "/Dec/31/the-year-in-llms/".
Proof.
  unfold get_url_for_year, URL_PATTERNS. cbn [dict_get].
  destruct (Z.eqb_spec 2023 year) as [<-|_]; [left; now split |].
  destruct (Z.eqb_spec 2024 year) as [<-|_]; [right; left; now split |].
  destruct (Z.eqb_spec 2025 year) as [<-|_]; right; right; reflexivity.
Qed.

(** X1. The URL of every year is an absolute https URL on
    simonwillison.net; for a year outside [URL_PATTERNS] it is the first
    of the three guessed patterns; and no two years have the same
    URL. *)
Theorem get_url_for_year_distinct :
  forall year : Z,
    PyStr.startswith (get_url_for_year year) "https://simonwillison.net/" = true
    /\ Url.is_absolute (get_url_for_year year) = true
    /\ (dict_get year URL_PATTERNS = None ->
        get_url_for_year year
        = "https://simonwillison.net/" +:+ PyStr.str_of_int year
          +:+ "/Dec/31/the-year-in-llms/")
    /\ forall year' : Z,
        get_url_for_year year = get_url_for_year year' -> year = year'.
Proof.
  intros year.
  assert (Hs : PyStr.startswith (get_url_for_year year) "https://simonwillison.net/" = true).
  { destruct (get_url_cases year) as [[_ ->]|[[_ ->]| ->]]; reflexivity. }
  split; [exact Hs |]. split.
  { apply http_prefix_absolute. apply orb_true_iff. right.
    apply startswith_iff in Hs as [post ->]. reflexivity. }
  split; [apply get_url_unknown |].
  intros year' H.
  destruct (get_url_cases year) as [[-> E]|[[-> E]| E]];
    destruct (get_url_cases year') as [[-> E']|[[-> E']| E']];
    try reflexivity; rewrite ?E, ?E' in H; try discriminate H.
  - apply (append_cancel_l "https://simonwillison.net/") in H.
    change "2023/Dec/31/ai-in-2023/" with (PyStr.str_of_int 2023 +:+ String "/" "Dec/31/ai-in-2023/") in H.
    apply guess_inj in H as [_ H]. discriminate H.
  - apply (append_cancel_l "https://simonwillison.net/") in H.
    change "2024/Dec/31/llms-in-2024/" with (PyStr.str_of_int 2024 +:+ String "/" "Dec/31/llms-in-2024/") in H.
    apply guess_inj in H as [_ H]. discriminate H.
  - apply (append_cancel_l "https://simonwillison.net/") in H.
    change "2023/Dec/31/ai-in-2023/" with (PyStr.str_of_int 2023 +:+ String "/" "Dec/31/ai-in-2023/") in H.
    apply guess_inj in H as [_ H]. discriminate H.
  - apply (append_cancel_l "https://simonwillison.net/") in H.
    change "2024/Dec/31/llms-in-2024/" with (PyStr.str_of_int 2024 +:+ String "/" "Dec/31/llms-in-2024/") in H.
    apply guess_inj in H as [_ H]. discriminate H.
  - apply (append_cancel_l "https://simonwillison.net/") in H.
    now apply guess_inj in H as [H _].
Qed.

(** X2. The file names that [main] gives to the years are pairwise
    different and none is the name of the combined file. *)
Theorem year_file_names_distinct :
  forall year : Z,
    year_file_name year <> combined_file_name
    /\ forall year' : Z, year_file_name year = year_file_name year' -> year = year'.
Proof.
  intros year. unfold year_file_name, combined_file_name. split.
  - intros H. apply (append_cancel_l "year_in_llms_" _ "all.json") in H.
    destruct (str_of_int_head year) as [c [r [E Hc]]]. rewrite E in H.
    simpl in H. injection H as -> _. discriminate Hc.
  - intros year' H. apply (append_cancel_l "year_in_llms_") in H.
    change ".json" with (String "." "json") in H.
    destruct (append_stop_inj is_year_char "." eq_refl _ _ _ _
                (str_of_int_chars year) (str_of_int_chars year') H) as [E _].
    now apply str_of_int_inj.
Qed.

(* ================================================================== *)
(** * Case and growth in the categorizer *)
(* ================================================================== *)

Lemma lower_char_idem (c : ascii) :
  PyStr.lower_char (PyStr.lower_char c) = PyStr.lower_char c.
Proof. destruct c as [[] [] [] [] [] [] [] []]; reflexivity. Qed.

Lemma lower_idem (s : string) : PyStr.lower (PyStr.lower s) = PyStr.lower s.
Proof.
  induction s as [|c s IH]; simpl; [reflexivity |].
  now rewrite lower_char_idem, IH.
Qed.

Lemma lower_app (a b : string) :
  PyStr.lower (a +:+ b) = PyStr.lower a +:+ PyStr.lower b.
Proof. induction a as [|c a IH]; simpl; [reflexivity | now rewrite IH]. Qed.

Lemma Substring_trans (a b c : string) :
  Substring a b -> Substring b c -> Substring a c.
Proof.
  intros [p1 [q1 ->]] [p2 [q2 ->]]. exists (p2 +:+ p1), (q1 +:+ q2).
  now rewrite !append_assoc.
Qed.

Lemma Substring_lower (a b : string) :
  Substring a b -> Substring (PyStr.lower a) (PyStr.lower b).
Proof.
  intros [p [q ->]]. exists (PyStr.lower p), (PyStr.lower q).
  now rewrite !lower_app.
Qed.

Lemma any_kw_mono (kws : list string) (t1 t2 : string) :
  Substring t1 t2 -> any_kw kws t1 = true -> any_kw kws t2 = true.
Proof.
  intros Hsub. unfold any_kw. rewrite !existsb_exists.
  intros [kw [Hin H]]. exists kw. split; [exact Hin |].
  apply contains_iff. apply contains_iff in H.
  now apply (Substring_trans kw t1 t2).
Qed.

Lemma fired_mono (t1 t2 : string) :
  Substring t1 t2 -> incl (fired t1) (fired t2).
Proof.
  intros Hsub c. unfold fired. rewrite !in_map_iff.
  intros [row [<- Hrow]]. exists row. split; [reflexivity |].
  apply filter_In in Hrow as [Hin H]. apply filter_In. split; [exact Hin |].
  revert H. apply any_kw_mono. now apply Substring_lower.
Qed.

Lemma startswith_app_stop (sp : ascii) (kw : string) :
  all_chars (fun c => negb (Ascii.eqb c sp)) kw = true ->
  forall a b, PyStr.startswith (a +:+ String sp b) kw = PyStr.startswith a kw.
Proof.
  induction kw as [|k kw IH]; intros Hkw a b; [reflexivity |].
  simpl in Hkw. apply andb_true_iff in Hkw as [Hk Hkw].
  destruct a as [|x a]; simpl.
  - apply negb_true_iff in Hk. now rewrite Hk.
  - now rewrite IH.
Qed.

Lemma contains_app_stop (sp : ascii) (kw : string) :
  all_chars (fun c => negb (Ascii.eqb c sp)) kw = true ->
  forall a b,
    PyStr.contains kw (a +:+ String sp b)
    = PyStr.contains kw a || PyStr.contains kw b.
Proof.
  intros Hkw a b. induction a as [|x a IH].
  - change ("" +:+ String sp b) with (String sp b).
    change (PyStr.contains kw (String sp b))
      with (PyStr.startswith (String sp b) kw || PyStr.contains kw b).
    change (String sp b) with ("" +:+ String sp b) at 1.
    rewrite (startswith_app_stop sp kw Hkw "" b).
    simpl. now rewrite orb_false_r.
  - change (String x a +:+ String sp b) with (String x (a +:+ String sp b)).
    change (PyStr.contains kw (String x (a +:+ String sp b)))
      with (PyStr.startswith (String x (a +:+ String sp b)) kw
            || PyStr.contains kw (a +:+ String sp b)).
    change (String x (a +:+ String sp b)) with (String x a +:+ String sp b).
    rewrite (startswith_app_stop sp kw Hkw (String x a) b), IH.
    change (PyStr.contains kw (String x a))
      with (PyStr.startswith (String x a) kw || PyStr.contains kw a).
    now rewrite orb_assoc.
Qed.

Lemma any_kw_app_blank (kws : list string) (a b : string) :
  forallb no_blank kws = true ->
  any_kw kws (a +:+ " " +:+ b) = any_kw kws a || any_kw kws b.
Proof.
  unfold any_kw. induction kws as [|kw kws IH]; intros H; [reflexivity |].
  simpl in H. apply andb_true_iff in H as [Hkw H]. cbn [existsb].
  rewrite (IH H).
  replace (PyStr.contains kw (a +:+ " " +:+ b))
    with (PyStr.contains kw a || PyStr.contains kw b)
    by (symmetry; exact (contains_app_stop " " kw Hkw a b)).
  destruct (PyStr.contains kw a), (PyStr.contains kw b),
    (existsb (fun kw0 => PyStr.contains kw0 a) kws),
    (existsb (fun kw0 => PyStr.contains kw0 b) kws); reflexivity.
Qed.

Lemma fired_app_blank (a b : string) (c : string) :
  In c (fired (a +:+ " " +:+ b)) <-> In c (fired a) \/ In c (fired b).
Proof.
  unfold fired. rewrite !in_map_iff. 
  assert (E : PyStr.lower (a +:+ " " +:+ b) = PyStr.lower a +:+ " " +:+ PyStr.lower b)
    by (now rewrite !lower_app).
  rewrite E. split.
  - intros [row [<- Hrow]]. apply filter_In in Hrow as [Hin H].
    assert (Hnb : forallb no_blank (snd row) = true).
    { revert Hin. unfold category_table. cbn [In].
      intros [<-|[<-|[<-|[<-|[<-|[<-|[]]]]]]]; reflexivity. }
    rewrite (any_kw_app_blank _ _ _ Hnb) in H. apply orb_true_iff in H as [H|H];
      [left | right]; exists row; (split; [reflexivity | now apply filter_In]).
  - intros [[row [<- Hrow]]|[row [<- Hrow]]];
      apply filter_In in Hrow as [Hin H]; exists row; (split; [reflexivity |]);
      apply filter_In; (split; [exact Hin |]);
      assert (Hnb : forallb no_blank (snd row) = true)
        by (revert Hin; unfold category_table; cbn [In];
            intros [<-|[<-|[<-|[<-|[<-|[<-|[]]]]]]]; reflexivity);
      rewrite (any_kw_app_blank _ _ _ Hnb), H; [reflexivity | apply orb_true_r].
Qed.

(** X3. The categorizer ignores case: two texts that agree once
    lowered get the same categories, and lowering a text does not change
    its categories. *)
Theorem categorize_ignores_case :
  forall text : string,
    categorize_content (PyStr.lower text) = categorize_content text
    /\ forall text' : string,
        PyStr.lower text = PyStr.lower text' ->
        categorize_content text = categorize_content text'.
Proof.
  intros text. split.
  - unfold categorize_content. now rewrite lower_idem.
  - intros text' H. unfold categorize_content. now rewrite H.
Qed.

Lemma categorize_In (text c : string) :
  In c (categorize_content text)
  <-> In c (fired text) \/ (fired text = [] /\ c = "concepts").
Proof.
  rewrite categorize_content_fired. destruct (fired text) as [|x l].
  - simpl. split.
    + intros [<-|[]]. now right.
    + intros [[]|[_ ->]]. now left.
  - split; [now left | intros [H|[H _]]; [exact H | discriminate]].
Qed.

(** X5. The categories of an event are exactly those fired by the
    section title or by the joined content, or the default when
    neither fires any: the blank that joins title and content creates
    no match. *)
Theorem event_categories_of_title_and_content :
  forall (links : list Link) (year : Z) (section : Sec) (c : string),
    let content_text := PyStr.join " " (s_content section) in
    In c (e_categories (build_event links year section))
    <-> In c (fired (s_title section))
        \/ In c (fired content_text)
        \/ (fired (s_title section) = [] /\ fired content_text = []
            /\ c = "concepts").
Proof.
  intros links year section c content_text.
  rewrite build_event_eq. cbn [e_categories]. fold content_text.
  rewrite categorize_In, fired_app_blank. split.
  - intros [[H|H]|[Hnil ->]]; auto.
    right. right. repeat split.
    + destruct (fired (s_title section)) as [|x l] eqn:E; [reflexivity |].
      assert (Hin : In x (fired (s_title section +:+ " " +:+ content_text)))
        by (apply fired_app_blank; left; rewrite E; now left).
      rewrite Hnil in Hin. destruct Hin.
    + destruct (fired content_text) as [|x l] eqn:E; [reflexivity |].
      assert (Hin : In x (fired (s_title section +:+ " " +:+ content_text)))
        by (apply fired_app_blank; right; rewrite E; now left).
      rewrite Hnil in Hin. destruct Hin.
  - intros [H|[H|[H1 [H2 ->]]]]; auto.
    right. split; [| reflexivity].
    destruct (fired (s_title section +:+ " " +:+ content_text)) as [|x l] eqn:E;
      [reflexivity |].
    assert (Hin : In x (fired (s_title section +:+ " " +:+ content_text)))
      by (rewrite E; now left).
    apply fired_app_blank in Hin. rewrite H1, H2 in Hin. now destruct Hin.
Qed.

(** X4. A category whose keyword occurs in a text is still returned
    when text is added before or after it. *)
Theorem categories_grow_with_text :
  forall before text after : string,
    incl (fired text) (fired (before +:+ text +:+ after))
    /\ incl (fired text) (categorize_content (before +:+ text +:+ after)).
Proof.
  intros before text after.
  assert (H : incl (fired text) (fired (before +:+ text +:+ after)))
    by (apply fired_mono; now exists before, after).
  split; [exact H |].
  intros c Hc. apply categorize_In. left. now apply H.
Qed.

(* ================================================================== *)
(** * What the date inferrer returns *)
(* ================================================================== *)

Lemma ci_strip_prefix_split (m s rest : string) :
  ci_strip_prefix m s = Some rest ->
  exists pre, s = pre +:+ rest /\ PyStr.lower pre = PyStr.lower m.
Proof.
  revert s. induction m as [|c m IH]; intros s; cbn [ci_strip_prefix].
  - intros H. injection H as ->. now exists "".
  - destruct s as [|d s]; [discriminate |].
    destruct (Re.chr_match true c d) eqn:E; [| discriminate].
    intros H. destruct (IH s H) as [pre [-> Hpre]].
    exists (String d pre). split; [reflexivity |].
    simpl. rewrite Hpre. f_equal.
    unfold Re.chr_match in E. apply Ascii.eqb_eq in E. now symmetry.
Qed.



Lemma month_at_some (names : list string) (s month rest : string) :
  month_at names s = Some (month, rest) ->
  s = month +:+ rest
  /\ exists m, In m names /\ PyStr.lower month = PyStr.lower m.
Proof.
  induction names as [|n names IH]; cbn [month_at]; [discriminate |].
  destruct (ci_strip_prefix n s) as [r|] eqn:E.
  - intros H. injection H as <- <-.
    destruct (ci_strip_prefix_split n s r E) as [pre [-> Hpre]].
    rewrite consumed_prefix. split; [reflexivity |].
    exists n. split; [now left | exact Hpre].
  - intros H. destruct (IH H) as [Hs [m [Hm Hl]]].
    split; [exact Hs |]. exists m. split; [now right | exact Hl].
Qed.



Lemma take_day_shape (s d : string) :
  fst (take_day s) = Some d -> day_shaped d.
Proof.
  unfold day_shaped.
  destruct s as [|a [|b s]]; cbn [take_day]; try discriminate;
    destruct (PyStr.isdigit a) eqn:Ea; try discriminate.
  - intros H. injection H as <-. simpl. rewrite Ea. split; [reflexivity | lia].
  - destruct (PyStr.isdigit b) eqn:Eb; intros H; injection H as <-; simpl;
      rewrite Ea, ?Eb; split; try reflexivity; lia.
Qed.

Lemma take_year_shape (s y : string) :
  take_year s = Some y -> year_shaped y.
Proof.
  unfold year_shaped.
  destruct s as [|a [|b [|c [|d s]]]]; try discriminate. cbn [take_year].
  destruct (PyStr.isdigit a && PyStr.isdigit b && PyStr.isdigit c && PyStr.isdigit d) eqn:E;
    [| discriminate].
  intros H. injection H as <-. simpl. split; [| reflexivity].
  now rewrite andb_true_r, !andb_assoc.
Qed.

Lemma scan_date_shape (s month : string) (day yr : option string) :
  scan_date s = Some (month, day, yr) ->
  (exists rest, s = month +:+ rest)
  /\ (exists m, In m month_names /\ PyStr.lower month = PyStr.lower m)
  /\ (forall d, day = Some d -> day_shaped d)
  /\ (forall y, yr = Some y -> year_shaped y).
Proof.
  unfold scan_date, scan_tail.
  destruct (month_at month_names s) as [[mo rest]|] eqn:E; [| discriminate].
  destruct (take_day (PyStr.lstrip rest)) as [dy r] eqn:Ed.
  intros H. injection H as <- <- <-.
  destruct (month_at_some _ _ _ _ E) as [Hs Hm].
  split; [now exists rest |]. split; [exact Hm |]. split.
  - intros d ->. apply (take_day_shape (PyStr.lstrip rest)). now rewrite Ed.
  - intros y. apply take_year_shape.
Qed.

Lemma find_date_shape (s month : string) (day yr : option string) :
  find_date s = Some (month, day, yr) ->
  Substring month s
  /\ (exists m, In m month_names /\ PyStr.lower month = PyStr.lower m)
  /\ (forall d, day = Some d -> day_shaped d)
  /\ (forall y, yr = Some y -> year_shaped y).
Proof.
  induction s as [|c s IH]; cbn [find_date].
  - destruct (scan_date "") as [[[mo dy] y]|] eqn:E; [| discriminate].
    intros H. injection H as <- <- <-.
    destruct (scan_date_shape _ _ _ _ E) as [[rest Hs] H].
    split; [| exact H]. exists "", rest. exact Hs.
  - destruct (scan_date (String c s)) as [[[mo dy] y]|] eqn:E.
    + intros H. injection H as <- <- <-.
      destruct (scan_date_shape _ _ _ _ E) as [[rest Hs] H].
      split; [| exact H]. exists "", rest. exact Hs.
    + intros H. destruct (IH H) as [[pre [post Hs]] H'].
      split; [| exact H']. exists (String c pre), post. simpl. now rewrite Hs.
Qed.


(** X7. The result of the date inferrer has one of three shapes: the
    fallback year; a month from the text and a year; a month from the
    text, a day of one or two digits, a comma and a year; where the year
    is four digits or the fallback year. *)
Theorem extract_dates_shape :
  forall (text : string) (year : Z),
    extract_dates text year = Some (PyStr.str_of_int year)
    \/ (exists month y,
           extract_dates text year = Some (month +:+ " " +:+ y)
           /\ Substring month text
           /\ (year_shaped y \/ y = PyStr.str_of_int year))
    \/ (exists month d y,
           extract_dates text year = Some (month +:+ " " +:+ d +:+ ", " +:+ y)
           /\ Substring month text
           /\ day_shaped d
           /\ (year_shaped y \/ y = PyStr.str_of_int year)).
Proof.
  intros text year. rewrite extract_dates_scan.
  destruct (find_date text) as [[[month day] yr]|] eqn:E; [| now left].
  destruct (find_date_shape _ _ _ _ E) as [Hsub [_ [Hd Hy]]].
  right. cbn [format_date]. destruct day as [d|].
  - right. exists month, d. eexists. split; [reflexivity |].
    split; [exact Hsub |]. split; [now apply Hd |].
    destruct yr as [y|]; [left; now apply Hy | now right].
  - left. exists month. eexists. split; [reflexivity |].
    split; [exact Hsub |].
    destruct yr as [y|]; [left; now apply Hy | now right].
Qed.

(** A written-out date is read back as written. *)
Lemma scan_tail_full (d1 d2 y1 y2 y3 y4 : ascii) (post : string) :
  PyStr.isdigit d1 = true -> PyStr.isdigit d2 = true ->
  PyStr.isdigit y1 = true -> PyStr.isdigit y2 = true ->
  PyStr.isdigit y3 = true -> PyStr.isdigit y4 = true ->
  scan_tail (" " +:+ String d1 (String d2 (", " +:+ String y1 (String y2 (String y3 (String y4 post))))))
  = (Some (String d1 (String d2 "")),
     Some (String y1 (String y2 (String y3 (String y4 ""))))).
Proof.
  intros H1 H2 H3 H4 H5 H6. unfold scan_tail.
  change (PyStr.lstrip (" " +:+ ?x)) with (PyStr.lstrip x).
  cbn [PyStr.lstrip]. rewrite (digit_not_space d1 H1).
  cbn [take_day]. rewrite H1, H2.
  change (skip_comma (", " +:+ ?x)) with (String " " x).
  change (PyStr.lstrip (String " " ?x)) with (PyStr.lstrip x).
  cbn [PyStr.lstrip]. rewrite (digit_not_space y1 H3).
  cbn [take_year]. now rewrite H3, H4, H5, H6.
Qed.

Lemma find_date_at_start (s : string) (d : string * option string * option string) :
  scan_date s = Some d -> find_date s = Some d.
Proof. intros H. destruct s; cbn [find_date]; now rewrite H. Qed.

(** X8. A date written as month name, blank, two digits, comma, blank,
    four digits at the start of a text is returned as written, whatever
    the digits, the text after it and the fallback year. *)
Theorem extract_dates_reads_back :
  forall (m : string) (d1 d2 y1 y2 y3 y4 : ascii) (post : string) (year : Z),
    In m month_names ->
    PyStr.isdigit d1 = true -> PyStr.isdigit d2 = true ->
    PyStr.isdigit y1 = true -> PyStr.isdigit y2 = true ->
    PyStr.isdigit y3 = true -> PyStr.isdigit y4 = true ->
    let date := m +:+ " " +:+ String d1 (String d2 "") +:+ ", "
                +:+ String y1 (String y2 (String y3 (String y4 ""))) in
    extract_dates (date +:+ post) year = Some date.
Proof.
  intros m d1 d2 y1 y2 y3 y4 post year Hm H1 H2 H3 H4 H5 H6 date.
  rewrite extract_dates_scan.
  assert (E : date +:+ post
              = m +:+ (" " +:+ String d1 (String d2 (", " +:+ String y1 (String y2 (String y3 (String y4 post))))))).
  { unfold date. rewrite !append_assoc. reflexivity. }
  rewrite E.
  rewrite (find_date_at_start _ (m, Some (String d1 (String d2 "")),
                                 Some (String y1 (String y2 (String y3 (String y4 "")))))).
  - reflexivity.
  - unfold scan_date. rewrite (month_at_self m _ Hm).
    now rewrite (scan_tail_full d1 d2 y1 y2 y3 y4 post H1 H2 H3 H4 H5 H6).
Qed.

(* ================================================================== *)
(** * Sections and their siblings *)
(* ================================================================== *)

Lemma heading_not_p (e : PageElement) : is_heading e = true -> has_name "p" e = false.
Proof.
  unfold is_heading, name_in. simpl. rewrite orb_false_r.
  destruct e as [n a c|s]; simpl; [| discriminate].
  intros H. apply orb_true_iff in H as [H|H]; apply String.eqb_eq in H; now subst.
Qed.

Lemma before_heading_relevant (siblings : list PageElement) :
  paragraphs (before_heading (filter relevant_sibling siblings))
  = paragraphs (before_heading siblings).
Proof.
  unfold paragraphs, relevant_sibling.
  induction siblings as [|e l IH]; [reflexivity |].
  cbn [filter before_heading].
  destruct (is_heading e) eqn:Eh; cbn [orb before_heading].
  - now rewrite Eh.
  - destruct (has_name "p" e) eqn:Ep.
    + cbn [before_heading]. rewrite Eh. cbn [filter map]. rewrite Ep.
      cbn [map]. now rewrite IH.
    + cbn [filter]. rewrite Ep. exact IH.
Qed.

Lemma filter_tag_relevant (l : list PageElement) :
  filter is_tag (filter relevant_sibling l) = filter relevant_sibling l.
Proof.
  induction l as [|e l IH]; [reflexivity |]. cbn [filter].
  destruct (relevant_sibling e) eqn:E; [| exact IH].
  cbn [filter]. destruct e as [n a c|s]; [cbn; now rewrite IH | discriminate E].
Qed.

Lemma filter_relevant_tag (l : list PageElement) :
  filter relevant_sibling (filter is_tag l) = filter relevant_sibling l.
Proof.
  induction l as [|e l IH]; [reflexivity |]. cbn [filter].
  destruct e as [n a c|s]; cbn [is_tag filter].
  - now rewrite IH.
  - exact IH.
Qed.

(** X9. The content of a section depends only on the headings and
    paragraphs among the siblings that follow its heading: any other
    sibling, with all that it holds, is passed over. *)
Theorem section_content_ignores_other_siblings :
  forall heading : located,
    s_content (section_of_heading heading)
    = s_content (section_of_heading
                   (Loc (node heading)
                        (filter relevant_sibling (following heading))))
    /\ s_content (section_of_heading heading)
       = paragraphs (before_heading (filter relevant_sibling (following heading))).
Proof.
  intros heading. unfold section_of_heading, find_next_siblings.
  cbn [s_content following]. rewrite !collect_content_eq. cbn [app].
  rewrite filter_tag_relevant.
  rewrite before_heading_relevant.
  rewrite <- (before_heading_relevant (filter is_tag (following heading))).
  now rewrite filter_relevant_tag, before_heading_relevant.
Qed.

Lemma find_all_flat (n : string) (a : list (string * string)) (cs : list PageElement) :
  Forall no_heading_inside cs ->
  find_all is_heading (Tag n a cs) = top_headings cs.
Proof.
  unfold find_all. cbn [descendants].
  induction 1 as [|c rest Hc _ IH]; [reflexivity |].
  cbn [filter top_headings node]. rewrite filter_app, IH.
  unfold no_heading_inside, find_all in Hc. rewrite Hc.
  destruct (is_tag c && is_heading c); reflexivity.
Qed.

Lemma paragraphs_app (l1 l2 : list PageElement) :
  paragraphs (l1 ++ l2) = paragraphs l1 ++ paragraphs l2.
Proof. unfold paragraphs. now rewrite filter_app, map_app. Qed.

Lemma paragraphs_split (l : list PageElement) :
  paragraphs (before_heading l) ++ paragraphs (after_first_heading l)
  = paragraphs l.
Proof.
  induction l as [|e l IH]; [reflexivity |].
  cbn [before_heading after_first_heading].
  destruct (is_heading e) eqn:E.
  - unfold paragraphs. cbn [filter map app]. now rewrite (heading_not_p e E).
  - change (e :: before_heading l) with ([e] ++ before_heading l).
    change (e :: l) with ([e] ++ l).
    now rewrite !paragraphs_app, <- app_assoc, IH.
Qed.

Lemma top_headings_contents (cs : list PageElement) :
  List.concat (map (fun h => s_content (section_of_heading h)) (top_headings cs))
  = paragraphs (after_first_heading (filter is_tag cs)).
Proof.
  induction cs as [|c rest IH]; [reflexivity |].
  cbn [top_headings filter]. rewrite map_app, concat_app, IH.
  destruct c as [n a k|s]; cbn [is_tag andb].
  - cbn [after_first_heading]. destruct (is_heading (Tag n a k)) eqn:E.
    + cbn [map List.concat]. unfold section_of_heading, find_next_siblings.
      cbn [s_content following]. rewrite collect_content_eq. cbn [app].
      rewrite app_nil_r. apply paragraphs_split.
    + reflexivity.
  - reflexivity.
Qed.

(** X10. When no heading lies deeper than the contents of the content
    container, the contents of the sections, taken in order, are the
    texts of the paragraphs after the first heading: each of them once,
    none from before the first heading; and there is one section per
    heading. *)
Theorem flat_sections_partition_paragraphs :
  forall (soup : PageElement) (n : string) (a : list (string * string))
         (cs : list PageElement),
    article_of soup = Tag n a cs ->
    Forall no_heading_inside cs ->
    List.concat (map s_content (extract_headings_and_sections soup))
    = paragraphs (after_first_heading (filter is_tag cs))
    /\ List.length (extract_headings_and_sections soup)
       = List.length (filter is_heading cs).
Proof.
  intros soup n a cs Hart Hflat.
  rewrite extract_headings_and_sections_eq, Hart, (find_all_flat n a cs Hflat).
  rewrite map_map. split; [apply top_headings_contents |].
  rewrite length_map. clear. induction cs as [|c rest IH]; [reflexivity |].
  cbn [top_headings filter]. rewrite length_app, IH.
  destruct c as [m b k|s]; cbn [is_tag andb].
  - destruct (is_heading (Tag m b k)); reflexivity.
  - reflexivity.
Qed.

(** X10 on [two_sections_page]. *)
Lemma flat_sections_witness :
  article_of two_sections_page
  = Tag "[document]" []
      [ Tag "h2" [] [NavigableString "Intro"];
        Tag "p" [] [NavigableString "One."];
        Tag "p" [] [NavigableString "Two."];
        Tag "h2" [] [NavigableString "Models"];
        Tag "p" [] [NavigableString "Three."] ]
  /\ Forall no_heading_inside
            [ Tag "h2" [] [NavigableString "Intro"];
              Tag "p" [] [NavigableString "One."];
              Tag "p" [] [NavigableString "Two."];
              Tag "h2" [] [NavigableString "Models"];
              Tag "p" [] [NavigableString "Three."] ]
  /\ List.concat (map s_content (extract_headings_and_sections two_sections_page))
     = ["One."; "Two."; "Three."]
  /\ List.length (extract_headings_and_sections two_sections_page) = 2.
Proof.
  assert (H : article_of two_sections_page
              = Tag "[document]" []
                  [ Tag "h2" [] [NavigableString "Intro"];
                    Tag "p" [] [NavigableString "One."];
                    Tag "p" [] [NavigableString "Two."];
                    Tag "h2" [] [NavigableString "Models"];
                    Tag "p" [] [NavigableString "Three."] ]) by reflexivity.
  assert (F : Forall no_heading_inside
                [ Tag "h2" [] [NavigableString "Intro"];
                  Tag "p" [] [NavigableString "One."];
                  Tag "p" [] [NavigableString "Two."];
                  Tag "h2" [] [NavigableString "Models"];
                  Tag "p" [] [NavigableString "Three."] ])
    by (repeat constructor).
  split; [exact H |]. split; [exact F |].
  destruct (flat_sections_partition_paragraphs two_sections_page _ _ _ H F)
    as [E L].
  split; [rewrite E | rewrite L]; reflexivity.
Defined.

(* ================================================================== *)
(** * Trimmed texts *)
(* ================================================================== *)

Lemma lstrip_first (s : string) : not_blank (first_char (PyStr.lstrip s)).
Proof.
  induction s as [|c s IH]; cbn [PyStr.lstrip]; [exact I |].
  destruct (PyStr.isspace c) eqn:E; [exact IH | exact E].
Qed.

Lemma last_char_none (s : string) : last_char s = None -> s = "".
Proof. destruct s as [|c s]; [reflexivity |]. cbn. now destruct (last_char s). Qed.

Lemma rstrip_last (s : string) : not_blank (last_char (PyStr.rstrip s)).
Proof.
  induction s as [|c s IH]; cbn [PyStr.rstrip]; [exact I |].
  destruct (PyStr.rstrip s) as [|d r] eqn:E.
  - destruct (PyStr.isspace c) eqn:Ec; [exact I | exact Ec].
  - change (last_char (String c (String d r)))
      with (match last_char (String d r) with
            | Some x => Some x
            | None => Some c
            end).
    destruct (last_char (String d r)) eqn:EL; [exact IH |].
    apply last_char_none in EL. discriminate EL.
Qed.

Lemma rstrip_first (s : string) :
  not_blank (first_char s) -> not_blank (first_char (PyStr.rstrip s)).
Proof.
  destruct s as [|c s]; cbn [PyStr.rstrip first_char not_blank]; [auto |].
  intros H. destruct (PyStr.rstrip s); [now rewrite H | exact H].
Qed.

Lemma strip_trimmed (s : string) : trimmed (PyStr.strip s).
Proof.
  unfold trimmed, PyStr.strip. split.
  - apply rstrip_first, lstrip_first.
  - apply rstrip_last.
Qed.

Lemma last_char_app (a b : string) :
  last_char (a +:+ b)
  = match last_char b with Some c => Some c | None => last_char a end.
Proof.
  induction a as [|x a IH]; cbn [String.append last_char].
  - now destruct (last_char b).
  - rewrite IH. destruct (last_char b); [reflexivity |].
    reflexivity.
Qed.

(** Gluing non-empty trimmed pieces gives a trimmed text. *)
Lemma concat_trimmed (pieces : list string) :
  Forall (fun p => trimmed p /\ p <> "") pieces ->
  trimmed (String.concat "" pieces).
Proof.
  induction 1 as [|p l [Hp Hne] Hl IH]; [split; exact I |].
  cbn [String.concat]. destruct l as [|q l].
  - exact Hp.
  - cbn [String.append]. destruct IH as [IH1 IH2]. split.
    + destruct p as [|c p]; [contradiction |]. exact (proj1 Hp).
    + rewrite last_char_app.
      destruct (last_char (String.concat "" (q :: l))) eqn:E; [exact IH2 |].
      exact (proj2 Hp).
Qed.

Lemma get_text_strip_trimmed (e : PageElement) : trimmed (get_text_strip e).
Proof.
  unfold get_text_strip, PyStr.join. apply concat_trimmed.
  apply Forall_forall. intros p Hp. apply filter_In in Hp as [Hin Ht].
  apply in_map_iff in Hin as [s [<- _]]. split; [apply strip_trimmed |].
  now apply truthy_iff.
Qed.

(** X11. No link text, section title or paragraph of a section starts
    or ends with a blank. *)
Theorem extracted_texts_are_trimmed :
  forall (urljoin : string -> string -> string) (soup : PageElement)
         (base_url : string),
    Forall (fun link => trimmed (l_text link))
           (extract_links urljoin soup base_url)
    /\ Forall (fun s => trimmed (s_title s) /\ Forall trimmed (s_content s))
              (extract_headings_and_sections soup).
Proof.
  intros urljoin soup base_url. split.
  - rewrite extract_links_any. apply Forall_map, Forall_forall.
    intros a _. apply get_text_strip_trimmed.
  - rewrite extract_headings_and_sections_eq. apply Forall_map, Forall_forall.
    intros h _. unfold section_of_heading. cbn [s_title s_content]. split.
    + apply get_text_strip_trimmed.
    + rewrite collect_content_eq. cbn [app]. unfold paragraphs.
      apply Forall_map, Forall_forall. intros p _. apply get_text_strip_trimmed.
Qed.

(* ================================================================== *)
(** * Links inside sections *)
(* ================================================================== *)















(* ================================================================== *)
(** * What a year yields *)
(* ================================================================== *)

Section Scrape.
Variable env : Env.

Lemma verify_all_full (verify_links : bool) (url : string) (links : list Link)
      (w : World) :
  exists out,
    verify_all env verify_links url links w
    = ((if verify_links then last (probed_urls env links) url else url,
        if verify_links then map (probe env) (probed_urls env links) else []),
       add_out out w).
Proof.
  unfold verify_all, probed_urls. destruct verify_links.
  - unfold bind. rewrite print_add_out. unfold enumerate.
    destruct (verify_loop env (List.length (list_of_set env (map l_url links)))
                          (firstn 50 (list_of_set env (map l_url links)))
                          0 url []
                          (add_out ["Verifying " +:+ str_of_nat (List.length links)
                                    +:+ " links..."] w))
      as [out Hout].
    rewrite Hout, add_out_add_out. eauto.
  - exists []. unfold ret. now rewrite add_out_nil.
Qed.

Lemma scrape_year_full (year : Z) (verify_links : bool) (w : World)
      (html : string) :
  requests_get env (get_url_for_year year) = inl html ->
  PyStr.truthy html = true ->
  exists out,
    scrape_year env year verify_links w
    = (Some (year_result env year verify_links html (clock w)),
       after_reading out w).
Proof.
  intros Hget Hhtml. unfold scrape_year, fetch_page. rewrite Hget.
  unfold bind at 1. rewrite print_add_out.
  unfold bind at 1. unfold ret at 1. rewrite Hhtml. cbn [negb].
  match goal with
  | |- context [verify_all env verify_links ?u ?l] =>
      set (links := l); set (url := u)
  end.
  unfold bind at 1.
  destruct (verify_all_full verify_links url links
              (add_out ["Fetching " +:+ PyStr.str_of_int year +:+ " from "
                        +:+ url +:+ "..."] w)) as [out Hv].
  rewrite Hv, add_out_add_out. unfold bind, tick, ret. cbn.
  exists (["Fetching " +:+ PyStr.str_of_int year +:+ " from "
           +:+ url +:+ "..."] ++ out).
  unfold year_result, after_reading, title_of. fold url. fold links.
  destruct verify_links;
    destruct (find (has_name "h1") (html_parser env html));
    try reflexivity;
    destruct (find (has_name "title") (html_parser env html)); reflexivity.
Qed.

Lemma fetch_fails_false (year : Z) :
  fetch_fails env year = false ->
  exists html, requests_get env (get_url_for_year year) = inl html
               /\ PyStr.truthy html = true.
Proof.
  unfold fetch_fails.
  destruct (requests_get env (get_url_for_year year)) as [html|e]; [| discriminate].
  intros H. exists html. split; [reflexivity | now apply negb_false_iff].
Qed.

Lemma scrape_year_some (year : Z) (verify_links : bool) (w : World)
      (data : YearResult) :
  fst (scrape_year env year verify_links w) = Some data ->
  exists html,
    requests_get env (get_url_for_year year) = inl html
    /\ PyStr.truthy html = true
    /\ data = year_result env year verify_links html (clock w).
Proof.
  intros H. destruct (fetch_fails env year) eqn:Hf.
  - rewrite (scrape_year_fails env year verify_links w Hf) in H. discriminate.
  - destruct (fetch_fails_false year Hf) as [html [Hget Hh]].
    destruct (scrape_year_full year verify_links w html Hget Hh) as [out E].
    rewrite E in H. injection H as <-. now exists html.
Qed.
End Scrape.


Lemma extract_links_nonempty (urljoin : string -> string -> string)
      (soup : PageElement) (base_url : string) :
  Forall (fun l => l_text l <> "" /\ l_url l <> "")
         (extract_links urljoin soup base_url).
Proof.
  rewrite extract_links_any. apply Forall_map, Forall_forall.
  intros a Ha. apply filter_In in Ha as [_ Ha].
  apply andb_true_iff in Ha as [H1 H2]. cbn [l_text l_url].
  split; now apply truthy_iff.
Qed.

(** X15. A result of [scrape_year] is for the requested year; its
    links, sections and title are those of the parsed page and its
    events those built from these sections and links; every link has a
    non-empty text and URL; every link of an event is one of the links
    of the page; and there are no more events than sections. *)
Theorem scrape_year_result_consistent :
  forall (env : Env) (year : Z) (verify_links : bool) (w : World)
         (data : YearResult),
    fst (scrape_year env year verify_links w) = Some data ->
    y_year data = year
    /\ (exists html,
           requests_get env (get_url_for_year year) = inl html
           /\ y_all_links data
              = extract_links (urljoin env) (html_parser env html)
                              (get_url_for_year year)
           /\ y_sections data
              = extract_headings_and_sections (html_parser env html)
           /\ y_title data = title_of (html_parser env html) year)
    /\ y_events data = build_events (y_sections data) (y_all_links data) year
    /\ y_scraped_at data = now_isoformat env (clock w)
    /\ Forall (fun l => l_text l <> "" /\ l_url l <> "") (y_all_links data)
    /\ Forall (fun e => incl (e_links e) (y_all_links data)
                        /\ Forall (fun l => l_text l <> "") (e_links e))
              (y_events data)
    /\ List.length (y_events data) <= List.length (y_sections data).
Proof.
  intros env year verify_links w data H.
  destruct (scrape_year_some env year verify_links w data H)
    as [html [Hget [_ ->]]].
  unfold year_result. cbn [y_year y_source_url y_title y_scraped_at y_events y_all_links y_sections y_link_verification].
  split; [reflexivity |]. split; [exists html; auto |].
  split; [reflexivity |]. split; [reflexivity |].
  split; [apply extract_links_nonempty |]. split.
  - rewrite build_events_eq. apply Forall_map, Forall_forall. intros s _.
    rewrite build_event_eq. cbn [e_links]. split.
    + intros l Hl. now apply filter_In in Hl as [Hl _].
    + apply Forall_forall. intros l Hl. apply filter_In in Hl as [Hl _].
      pose proof (extract_links_nonempty (urljoin env) (html_parser env html)
                    (get_url_for_year year)) as Hall.
      rewrite Forall_forall in Hall. now apply Hall.
  - rewrite build_events_eq, length_map. apply filter_length_le.
Qed.

Lemma last_In {A : Type} (l : list A) (d : A) : l <> [] -> In (last l d) l.
Proof.
  induction l as [|x l IH]; [contradiction |]. intros _.
  destruct l as [|y l]; [now left |].
  right. apply IH. discriminate.
Qed.

(** X16. The source URL of a result is the URL of the page when
    verification is off or probes nothing; with verification on it is
    the last URL probed, one of the URLs of the links. *)
Theorem source_url_is_last_probed :
  forall (env : Env) (year : Z) (verify_links : bool) (w : World)
         (data : YearResult),
    fst (scrape_year env year verify_links w) = Some data ->
    y_source_url data
    = (if verify_links
       then last (probed_urls env (y_all_links data)) (get_url_for_year year)
       else get_url_for_year year)
    /\ (verify_links = true ->
        probed_urls env (y_all_links data) <> [] ->
        In (y_source_url data) (probed_urls env (y_all_links data))).
Proof.
  intros env year verify_links w data H.
  destruct (scrape_year_some env year verify_links w data H)
    as [html [Hget [_ ->]]].
  unfold year_result. cbn [y_year y_source_url y_title y_scraped_at y_events y_all_links y_sections y_link_verification].
  split; [reflexivity |].
  intros -> Hne. now apply last_In.
Qed.

(** X17. In every verification record: the final URL is never the
    probed URL itself and is present only with a status; an error is
    present exactly when the status is absent; and a valid record has a
    status. *)
Theorem verification_records_redirect :
  forall (env : Env) (year : Z) (verify_links : bool) (w : World)
         (data : YearResult),
    fst (scrape_year env year verify_links w) = Some data ->
    forall records,
      y_link_verification data = Some records ->
      Forall (fun r =>
                v_final_url r <> Some (v_url r)
                /\ (v_final_url r <> None -> v_status r <> None)
                /\ (v_status r = None <-> v_error r <> None)
                /\ (v_valid r = true -> v_status r <> None))
             records.
Proof.
  intros env year verify_links w data H records Hr.
  destruct (scrape_year_some env year verify_links w data H)
    as [html [Hget [_ ->]]].
  unfold year_result in Hr. cbn [y_link_verification] in Hr.
  destruct verify_links; [| discriminate]. injection Hr as <-.
  apply Forall_map, Forall_forall. intros u _.
  unfold probe, verify_link.
  destruct (requests_head env u) as [[status final]|e]; cbn.
  - destruct (String.eqb_spec final u) as [->|Hne]; cbn.
    + repeat split; try discriminate; try congruence.
    + repeat split; try discriminate; try congruence.
  - repeat split; try discriminate; congruence.
Qed.

(* ================================================================== *)
(** * What a run writes and prints *)
(* ================================================================== *)






Section Main.
Variable env : Env.
Variable args : Args.






End Main.








Lemma slice_to_app (a b : string) :
  PyStr.slice_to (String.length a) (a +:+ b) = a.
Proof. induction a as [|c a IH]; simpl; [now destruct b | now rewrite IH]. Qed.

(** X13. Truncating a description again changes nothing, and a
    description starts with the same 300 characters as the content. *)
Theorem describe_idempotent :
  forall t : string,
    describe (describe t) = describe t
    /\ PyStr.slice_to 300 (describe t) = PyStr.slice_to 300 t.
Proof.
  intros t. destruct (Nat.le_gt_cases (String.length t) 300) as [H | H].
  - rewrite (describe_short t H). split; [now apply describe_short | reflexivity].
  - rewrite (describe_long t H).
    assert (Hlen : String.length (PyStr.slice_to 300 t) = 300)
      by (apply slice_to_length; lia).
    assert (Hs : PyStr.slice_to 300 (PyStr.slice_to 300 t +:+ "...")
                 = PyStr.slice_to 300 t).
    { rewrite <- Hlen at 1. apply slice_to_app. }
    split; [| exact Hs].
    rewrite describe_long; [now rewrite Hs |].
    rewrite length_append, Hlen. simpl. lia.
Qed.

(* ================================================================== *)
(** * The further properties on sample inputs *)
(* ================================================================== *)

(** X8 for a day that no month has. *)
Lemma extract_dates_reads_back_witness :
  In "February" month_names
  /\ PyStr.isdigit "3" = true /\ PyStr.isdigit "1" = true
  /\ PyStr.isdigit "2" = true /\ PyStr.isdigit "0" = true
  /\ PyStr.isdigit "5" = true
  /\ extract_dates "February 31, 2025 was announced" 1999
     = Some "February 31, 2025".
Proof.
  assert (Hm : In "February" month_names) by (right; left; reflexivity).
  split; [exact Hm |]. repeat (split; [reflexivity |]).
  exact (extract_dates_reads_back "February" "3" "1" "2" "0" "2" "5"
           " was announced" 1999 Hm eq_refl eq_refl eq_refl eq_refl
           eq_refl eq_refl).
Defined.


(** X15 on [crowded_page]. *)
Lemma scrape_year_result_witness :
  match fst (scrape_year sample_env 2025 false empty_world) with
  | None => False
  | Some data =>
      y_year data = 2025%Z
      /\ y_events data = build_events (y_sections data) (y_all_links data) 2025
      /\ Forall (fun l => l_text l <> "" /\ l_url l <> "") (y_all_links data)
      /\ List.length (y_events data) <= List.length (y_sections data)
  end.
Proof.
  destruct (fst (scrape_year sample_env 2025 false empty_world))
    as [data|] eqn:E; [| vm_compute in E; discriminate E].
  destruct (scrape_year_result_consistent sample_env 2025 false empty_world
                                          data E)
    as [H1 [_ [H3 [_ [H5 [_ H7]]]]]].
  auto.
Defined.

(** X16 on [crowded_page]: with verification on the source URL is the
    fiftieth distinct link. *)
Lemma source_url_witness :
  match fst (scrape_year sample_env 2025 true empty_world) with
  | None => False
  | Some data =>
      y_source_url data
      = last (probed_urls sample_env (y_all_links data))
             (get_url_for_year 2025)
  end
  /\ option_map y_source_url
                (fst (scrape_year sample_env 2025 true empty_world))
     = Some "https://simonwillison.net/l49".
Proof.
  split; [| vm_compute; reflexivity].
  destruct (fst (scrape_year sample_env 2025 true empty_world))
    as [data|] eqn:E; [| vm_compute in E; discriminate E].
  exact (proj1 (source_url_is_last_probed sample_env 2025 true empty_world
                                          data E)).
Defined.

(** X17 on [crowded_page]. *)
Lemma verification_records_witness :
  match fst (scrape_year sample_env 2025 true empty_world) with
  | None => False
  | Some data =>
      match y_link_verification data with
      | None => False
      | Some records =>
          Forall (fun r => v_final_url r <> Some (v_url r)
                           /\ (v_status r = None <-> v_error r <> None))
                 records
      end
  end.
Proof.
  destruct (fst (scrape_year sample_env 2025 true empty_world))
    as [data|] eqn:E; [| vm_compute in E; discriminate E].
  pose proof (verification_records_redirect sample_env 2025 true empty_world
                data E) as H.
  destruct (scrape_year_some sample_env 2025 true empty_world data E)
    as [html [_ [_ Hd]]].
  destruct (y_link_verification data) as [records|] eqn:Er.
  - specialize (H records eq_refl).
    revert H. apply Forall_impl. intros r [H1 [_ [H3 _]]]. now split.
  - rewrite Hd in Er. unfold year_result in Er.
    cbn [y_link_verification] in Er. discriminate Er.
Defined.
